(** * savestate.c: the crash-recovery save state of tmnt64

    A shallow embedding of [Source/savestate.c] and the properties of its
    save / load / clear protocol.

    The file keeps one [GameSave] record in memory ([global_gamesave]), a
    capability flag ([global_cansave]) and talks to three kinds of
    collaborators: the EEPROM driver of libdragon, the game modules that
    answer the getters and receive the setters (core, results, minigame),
    and the registered minigame table.  Every function of the C file
    becomes a computation in a small state monad over a [World] that holds
    the two globals, the EEPROM, the answers of the getters and a log of
    every call that leaves the file. *)

From Stdlib Require Import ZArith List Bool Lia String Ascii.
Import ListNotations.
Local Open Scope Z_scope.

(** ** C integers, characters and arrays *)

(** Storing into a [uint8_t] / [uint32_t] keeps the low bits. *)
Definition u8 (z : Z) : Z := z mod 256.
Definition u32 (z : Z) : Z := z mod 2 ^ 32.

(** An integer used as a truth value, and a [bool] used as an integer. *)
Definition truth (z : Z) : bool := negb (z =? 0).
Definition int_of_bool (b : bool) : Z := if b then 1 else 0.

(** A character constant is its code. *)
Definition chr (c : ascii) : Z := Z.of_N (N_of_ascii c).

(** A string literal is its characters followed by the terminating NUL. *)
Definition cstring (s : string) : list Z :=
  map chr (list_ascii_of_string s) ++ [0].

(** [a[i]] and [a[i] = v] on an array held as a list.  An index outside
    the array is undefined in C; here a read gives the default and a store
    has no slot to change. *)
Definition aget {A} (d : A) (a : list A) (i : nat) : A := nth i a d.

Fixpoint aset {A} (a : list A) (i : nat) (v : A) : list A :=
  match a, i with
  | [], _ => []
  | _ :: a', O => v :: a'
  | x :: a', S i' => x :: aset a' i' v
  end.

(** [for (int i = start; i < start + n; i++) s = body i s], for a loop
    whose state is a local variable. *)
Fixpoint for_ {St} (n : nat) (i : nat) (body : nat -> St -> St) (s : St) : St :=
  match n with
  | O => s
  | S n' => for_ n' (S i) body (body i s)
  end.

(** [strncmp]: compares at most [n] characters, stopping after a NUL. *)
Fixpoint strncmp (s1 s2 : list Z) (n : nat) : Z :=
  match n with
  | O => 0
  | S n' =>
      let c1 := hd 0 s1 in
      let c2 := hd 0 s2 in
      if c1 =? c2
      then if c1 =? 0 then 0 else strncmp (tl s1) (tl s2) n'
      else c1 - c2
  end.

(** ** The GameSave structure *)

(** Modelled from the spec: [MAXPLAYERS] is declared in core.h, which is
    not part of the sources at hand; the spec gives four players, and
    [savestate_load] addresses [points[0]] to [points[3]] and [PLAYER_1]
    to [PLAYER_4]. *)
Definition MAXPLAYERS : nat := 4.

(** Modelled from the spec: the [PlyNum] enumerators of core.h, players 1
    to 4 in declaration order, counted from 0 as C enumerators are. *)
Definition PLAYER_1 : Z := 0.
Definition PLAYER_2 : Z := 1.
Definition PLAYER_3 : Z := 2.
Definition PLAYER_4 : Z := 3.

Record GameSave := mkGameSave {
  header : list Z;          (* char header[4] *)
  blacklist : Z;            (* uint32_t *)
  crashedflag : Z;          (* uint8_t *)
  aidiff : Z;               (* uint8_t *)
  pointstowin : Z;          (* uint8_t *)
  nextplaystyle : Z;        (* uint8_t *)
  playerconts : list Z;     (* uint8_t playerconts[MAXPLAYERS] *)
  points : list Z;          (* uint8_t points[MAXPLAYERS] *)
  chooser : Z;              (* uint8_t *)
  curgame : Z;              (* uint8_t *)
  checksum : Z;             (* uint8_t *)
  tailpad : list Z          (* padding up to sizeof(GameSave) *)
}.

(** Field assignments. *)
Definition set_header v g :=
  mkGameSave v (blacklist g) (crashedflag g) (aidiff g) (pointstowin g)
    (nextplaystyle g) (playerconts g) (points g) (chooser g) (curgame g)
    (checksum g) (tailpad g).
Definition set_blacklist v g :=
  mkGameSave (header g) v (crashedflag g) (aidiff g) (pointstowin g)
    (nextplaystyle g) (playerconts g) (points g) (chooser g) (curgame g)
    (checksum g) (tailpad g).
Definition set_crashedflag v g :=
  mkGameSave (header g) (blacklist g) v (aidiff g) (pointstowin g)
    (nextplaystyle g) (playerconts g) (points g) (chooser g) (curgame g)
    (checksum g) (tailpad g).
Definition set_aidiff v g :=
  mkGameSave (header g) (blacklist g) (crashedflag g) v (pointstowin g)
    (nextplaystyle g) (playerconts g) (points g) (chooser g) (curgame g)
    (checksum g) (tailpad g).
Definition set_pointstowin v g :=
  mkGameSave (header g) (blacklist g) (crashedflag g) (aidiff g) v
    (nextplaystyle g) (playerconts g) (points g) (chooser g) (curgame g)
    (checksum g) (tailpad g).
Definition set_nextplaystyle v g :=
  mkGameSave (header g) (blacklist g) (crashedflag g) (aidiff g)
    (pointstowin g) v (playerconts g) (points g) (chooser g) (curgame g)
    (checksum g) (tailpad g).
Definition set_playerconts v g :=
  mkGameSave (header g) (blacklist g) (crashedflag g) (aidiff g)
    (pointstowin g) (nextplaystyle g) v (points g) (chooser g) (curgame g)
    (checksum g) (tailpad g).
Definition set_points v g :=
  mkGameSave (header g) (blacklist g) (crashedflag g) (aidiff g)
    (pointstowin g) (nextplaystyle g) (playerconts g) v (chooser g)
    (curgame g) (checksum g) (tailpad g).
Definition set_chooser v g :=
  mkGameSave (header g) (blacklist g) (crashedflag g) (aidiff g)
    (pointstowin g) (nextplaystyle g) (playerconts g) (points g) v
    (curgame g) (checksum g) (tailpad g).
Definition set_curgame v g :=
  mkGameSave (header g) (blacklist g) (crashedflag g) (aidiff g)
    (pointstowin g) (nextplaystyle g) (playerconts g) (points g) (chooser g)
    v (checksum g) (tailpad g).
Definition set_checksum v g :=
  mkGameSave (header g) (blacklist g) (crashedflag g) (aidiff g)
    (pointstowin g) (nextplaystyle g) (playerconts g) (points g) (chooser g)
    (curgame g) v (tailpad g).

(** *** The structure as bytes

    [calc_checksum], [memset] and the EEPROM transfers see the structure
    through a [uint8_t*].  The layout is the one of the target's C ABI:
    members in declaration order at their natural alignment, the 32-bit
    [blacklist] most significant byte first (the console is big-endian),
    and the size rounded up to the alignment of [uint32_t]. *)

Definition offsetof_header : nat := 0.
Definition offsetof_blacklist : nat := 4.
Definition offsetof_crashedflag : nat := 8.
Definition offsetof_aidiff : nat := 9.
Definition offsetof_pointstowin : nat := 10.
Definition offsetof_nextplaystyle : nat := 11.
Definition offsetof_playerconts : nat := 12.
Definition offsetof_points : nat := 12 + MAXPLAYERS.
Definition offsetof_chooser : nat := 12 + 2 * MAXPLAYERS.
Definition offsetof_curgame : nat := 13 + 2 * MAXPLAYERS.
Definition offsetof_checksum : nat := 14 + 2 * MAXPLAYERS.
Definition sizeof_GameSave : nat := 24.

(** [len] bytes of [data] from index [start]. *)
Definition read_bytes (data : list Z) (start len : nat) : list Z :=
  map (fun k => aget 0 data (start + k)%nat) (seq 0 len).

(** [data] with the bytes [src] stored from index [start]. *)
Fixpoint write_bytes (data : list Z) (start : nat) (src : list Z) : list Z :=
  match src with
  | [] => data
  | b :: src' => write_bytes (aset data start b) (S start) src'
  end.

Definition bytes_of_u32 (x : Z) : list Z :=
  [ Z.land (Z.shiftr x 24) 255; Z.land (Z.shiftr x 16) 255;
    Z.land (Z.shiftr x 8) 255; Z.land x 255 ].

Definition u32_of_bytes (b : list Z) : Z :=
  Z.lor (Z.shiftl (aget 0 b 0) 24)
    (Z.lor (Z.shiftl (aget 0 b 1) 16)
       (Z.lor (Z.shiftl (aget 0 b 2) 8) (aget 0 b 3))).

(** [(uint8_t* )&g]: the [sizeof(GameSave)] bytes of the structure. *)
Definition GameSave_bytes (g : GameSave) : list Z :=
  read_bytes (header g) 0 4
  ++ bytes_of_u32 (blacklist g)
  ++ [crashedflag g; aidiff g; pointstowin g; nextplaystyle g]
  ++ read_bytes (playerconts g) 0 MAXPLAYERS
  ++ read_bytes (points g) 0 MAXPLAYERS
  ++ [chooser g; curgame g; checksum g]
  ++ read_bytes (tailpad g) 0 (sizeof_GameSave - (offsetof_checksum + 1)).

(** The structure whose bytes are [b]. *)
Definition GameSave_of_bytes (b : list Z) : GameSave :=
  {| header := read_bytes b offsetof_header 4;
     blacklist := u32_of_bytes (read_bytes b offsetof_blacklist 4);
     crashedflag := aget 0 b offsetof_crashedflag;
     aidiff := aget 0 b offsetof_aidiff;
     pointstowin := aget 0 b offsetof_pointstowin;
     nextplaystyle := aget 0 b offsetof_nextplaystyle;
     playerconts := read_bytes b offsetof_playerconts MAXPLAYERS;
     points := read_bytes b offsetof_points MAXPLAYERS;
     chooser := aget 0 b offsetof_chooser;
     curgame := aget 0 b offsetof_curgame;
     checksum := aget 0 b offsetof_checksum;
     tailpad := read_bytes b (offsetof_checksum + 1)
                  (sizeof_GameSave - (offsetof_checksum + 1)) |}.

(** [memset(&g, c, sizeof(GameSave))]. *)
Definition memset_GameSave (c : Z) : GameSave :=
  GameSave_of_bytes (repeat (u8 c) sizeof_GameSave).

(** The sum, modulo 256, of every byte of the structure except the
    checksum byte: the value the specification asks of [checksum]. *)
Definition sum_other_bytes (g : GameSave) : Z :=
  let b := GameSave_bytes g in
  fold_left (fun acc x => u8 (acc + x))
    (firstn offsetof_checksum b ++ skipn (S offsetof_checksum) b) 0.

(** ** The world around the file *)

(** libdragon's [eeprom_type_t]. *)
Inductive eeprom_type_t := EEPROM_NONE | EEPROM_4K | EEPROM_16K.

Definition eeprom_type_eqb (a b : eeprom_type_t) : bool :=
  match a, b with
  | EEPROM_NONE, EEPROM_NONE | EEPROM_4K, EEPROM_4K
  | EEPROM_16K, EEPROM_16K => true
  | _, _ => false
  end.

(** What the getters of core, results and minigame currently answer. *)
Record GameState := mkGameState {
  cur_playerconts : list bool;   (* filled in by core_get_playerconts *)
  cur_aidifficulty : Z;
  cur_points_to_win : Z;
  cur_points : Z -> Z;           (* by player number *)
  cur_nextround : Z;
  cur_curchooser : Z;
  cur_minigame_index : Z
}.

(** An entry of the registered minigame table. *)
Record Minigame := mkMinigame { internalname : string }.

(** Every call that leaves the file, with the arguments it was given. *)
Inductive Call :=
| Call_eeprom_present
| Call_eeprom_read_bytes (start len : nat)
| Call_eeprom_write_bytes (src : list Z) (start len : nat)
| Call_core_get_playerconts
| Call_core_get_aidifficulty
| Call_results_get_points_to_win
| Call_results_get_points (player : Z)
| Call_core_get_nextround
| Call_core_get_curchooser
| Call_minigame_get_index
| Call_core_set_playercount (conts : list bool)
| Call_core_set_aidifficulty (v : Z)
| Call_results_set_points_to_win (v : Z)
| Call_results_set_points (player v : Z)
| Call_core_set_nextround (v : Z)
| Call_core_set_curchooser (v : Z)
| Call_minigame_loadnext (name : string).

Record World := mkWorld {
  global_cansave : Z;                    (* static uint8_t *)
  global_gamesave : GameSave;            (* static GameSave *)
  eeprom_type : eeprom_type_t;           (* the chip on the cartridge *)
  eeprom : list Z;                       (* and its bytes *)
  game : GameState;
  global_minigame_count : nat;
  global_minigame_list : list Minigame;
  calls : list Call                      (* oldest first *)
}.

Definition with_cansave v w :=
  mkWorld v (global_gamesave w) (eeprom_type w) (eeprom w) (game w)
    (global_minigame_count w) (global_minigame_list w) (calls w).
Definition with_gamesave v w :=
  mkWorld (global_cansave w) v (eeprom_type w) (eeprom w) (game w)
    (global_minigame_count w) (global_minigame_list w) (calls w).
Definition with_eeprom v w :=
  mkWorld (global_cansave w) (global_gamesave w) (eeprom_type w) v (game w)
    (global_minigame_count w) (global_minigame_list w) (calls w).
Definition with_game v w :=
  mkWorld (global_cansave w) (global_gamesave w) (eeprom_type w) (eeprom w) v
    (global_minigame_count w) (global_minigame_list w) (calls w).
Definition with_calls v w :=
  mkWorld (global_cansave w) (global_gamesave w) (eeprom_type w) (eeprom w)
    (game w) (global_minigame_count w) (global_minigame_list w) v.

(** *** The state monad of the file *)

Definition M (A : Type) : Type := World -> A * World.

Definition ret {A} (a : A) : M A := fun w => (a, w).

Definition bind {A B} (m : M A) (k : A -> M B) : M B :=
  fun w => let (a, w') := m w in k a w'.

Notation "x <- m ;; k" := (bind m (fun x => k))
  (at level 61, m at next level, right associativity).
Notation "m ;; k" := (bind m (fun _ => k))
  (at level 61, right associativity).

Definition exec {A} (m : M A) (w : World) : World := snd (m w).
Definition result {A} (m : M A) (w : World) : A := fst (m w).

(** A statement on the globals. *)
Definition assign_cansave (v : Z) : M unit :=
  fun w => (tt, with_cansave (u8 v) w).
Definition update_gamesave (f : GameSave -> GameSave) : M unit :=
  fun w => (tt, with_gamesave (f (global_gamesave w)) w).
Definition read_cansave : M Z := fun w => (global_cansave w, w).
Definition read_gamesave : M GameSave := fun w => (global_gamesave w, w).

(** A read of the globals of minigame.c. *)
Definition read_minigame_count : M nat :=
  fun w => (global_minigame_count w, w).
Definition read_minigame_list : M (list Minigame) :=
  fun w => (global_minigame_list w, w).

(** A call to a collaborator: logged, and answered from the world. *)
Definition call {A} (c : Call) (answer : World -> A) : M A :=
  fun w => (answer w, with_calls (calls w ++ [c]) w).

(** [for (int i = 0; i < n; i++) body i], for a loop that works on the
    globals or calls out. *)
Fixpoint forM_ (n : nat) (i : nat) (body : nat -> M unit) : M unit :=
  match n with
  | O => ret tt
  | S n' => body i ;; forM_ n' (S i) body
  end.

(** *** The collaborators *)

Definition eeprom_present : M eeprom_type_t :=
  call Call_eeprom_present eeprom_type.

(** [eeprom_read_bytes(dest, start, len)]; the bytes read are returned. *)
Definition eeprom_read_bytes (start len : nat) : M (list Z) :=
  call (Call_eeprom_read_bytes start len)
       (fun w => read_bytes (eeprom w) start len).

(** [eeprom_write_bytes(src, start, len)]. *)
Definition eeprom_write_bytes (src : list Z) (start len : nat) : M unit :=
  call (Call_eeprom_write_bytes src start len) (fun _ => tt) ;;
  fun w => (tt, with_eeprom (write_bytes (eeprom w) start (firstn len src)) w).

Definition core_get_playerconts : M (list bool) :=
  call Call_core_get_playerconts (fun w => cur_playerconts (game w)).
Definition core_get_aidifficulty : M Z :=
  call Call_core_get_aidifficulty (fun w => cur_aidifficulty (game w)).
Definition results_get_points_to_win : M Z :=
  call Call_results_get_points_to_win (fun w => cur_points_to_win (game w)).
Definition results_get_points (player : Z) : M Z :=
  call (Call_results_get_points player) (fun w => cur_points (game w) player).
Definition core_get_nextround : M Z :=
  call Call_core_get_nextround (fun w => cur_nextround (game w)).
Definition core_get_curchooser : M Z :=
  call Call_core_get_curchooser (fun w => cur_curchooser (game w)).
Definition minigame_get_index : M Z :=
  call Call_minigame_get_index (fun w => cur_minigame_index (game w)).

(** The setters belong to the other modules: what they do with the value
    is theirs, the log keeps what they were handed. *)
Definition core_set_playercount (conts : list bool) : M unit :=
  call (Call_core_set_playercount conts) (fun _ => tt).
Definition core_set_aidifficulty (v : Z) : M unit :=
  call (Call_core_set_aidifficulty v) (fun _ => tt).
Definition results_set_points_to_win (v : Z) : M unit :=
  call (Call_results_set_points_to_win v) (fun _ => tt).
Definition results_set_points (player v : Z) : M unit :=
  call (Call_results_set_points player v) (fun _ => tt).
Definition core_set_nextround (v : Z) : M unit :=
  call (Call_core_set_nextround v) (fun _ => tt).
Definition core_set_curchooser (v : Z) : M unit :=
  call (Call_core_set_curchooser v) (fun _ => tt).
Definition minigame_loadnext (name : string) : M unit :=
  call (Call_minigame_loadnext name) (fun _ => tt).

(** ** The functions of savestate.c *)

(** [calc_checksum]: every byte of the structure added up in a
    [uint8_t]. *)
Definition calc_checksum (g : GameSave) : Z :=
  let asarray := GameSave_bytes g in
  for_ sizeof_GameSave 0
    (fun i checksum => u8 (checksum + aget 0 asarray i)) 0.

Definition savestate_initialize : M bool :=
  assign_cansave 0 ;;
  (* Test for EEPROM *)
  t <- eeprom_present ;;
  if eeprom_type_eqb t EEPROM_NONE then ret false else
  assign_cansave 1 ;;
  (* Read the savestate from EEPROM *)
  b <- eeprom_read_bytes 0 sizeof_GameSave ;;
  update_gamesave (fun _ => GameSave_of_bytes b) ;;
  (* If the EEPROM hasn't been initialized before, do so now *)
  g <- read_gamesave ;;
  (if negb (strncmp (header g) (cstring "NBGJ") 4 =? 0) then
     update_gamesave (fun _ => memset_GameSave 0) ;;
     update_gamesave (fun g => set_header (aset (header g) 0 (chr "N")) g) ;;
     update_gamesave (fun g => set_header (aset (header g) 1 (chr "B")) g) ;;
     update_gamesave (fun g => set_header (aset (header g) 2 (chr "G")) g) ;;
     update_gamesave (fun g => set_header (aset (header g) 3 (chr "J")) g) ;;
     update_gamesave (fun g => set_checksum (calc_checksum g) g)
   else ret tt) ;;
  (* Success *)
  ret true.

Definition savestate_checkcrashed : M bool :=
  g <- read_gamesave ;;
  ret (truth (crashedflag g)).

Definition savestate_save (configonly : bool) : M unit :=
  cansave <- read_cansave ;;
  if negb (truth cansave) then ret tt else
  (* Grab the game state *)
  (if negb configonly then
     update_gamesave (set_crashedflag 1) ;;
     conts <- core_get_playerconts ;;
     forM_ MAXPLAYERS 0 (fun i =>
       update_gamesave (fun g =>
         set_playerconts
           (aset (playerconts g) i (int_of_bool (aget false conts i))) g)) ;;
     v <- core_get_aidifficulty ;;
     update_gamesave (set_aidiff (u8 v)) ;;
     v <- results_get_points_to_win ;;
     update_gamesave (set_pointstowin (u8 v)) ;;
     forM_ MAXPLAYERS 0 (fun i =>
       v <- results_get_points (PLAYER_1 + Z.of_nat i) ;;
       update_gamesave (fun g => set_points (aset (points g) i (u8 v)) g)) ;;
     v <- core_get_nextround ;;
     update_gamesave (set_nextplaystyle (u8 v)) ;;
     v <- core_get_curchooser ;;
     update_gamesave (set_chooser (u8 v)) ;;
     v <- minigame_get_index ;;
     update_gamesave (set_curgame (u8 v)) ;;
     update_gamesave (fun g => set_checksum (calc_checksum g) g)
   else ret tt) ;;
  (* Save to EEPROM *)
  g <- read_gamesave ;;
  eeprom_write_bytes (GameSave_bytes g) 0 sizeof_GameSave.

Definition savestate_load : M unit :=
  cansave <- read_cansave ;;
  if negb (truth cansave) then ret tt else
  (* Recover the game state *)
  g <- read_gamesave ;;
  let conts :=
    for_ MAXPLAYERS 0
      (fun i conts => aset conts i (truth (aget 0 (playerconts g) i)))
      (repeat false MAXPLAYERS) in
  core_set_playercount conts ;;
  core_set_aidifficulty (aidiff g) ;;
  results_set_points_to_win (pointstowin g) ;;
  results_set_points PLAYER_1 (aget 0 (points g) 0) ;;
  results_set_points PLAYER_2 (aget 0 (points g) 1) ;;
  results_set_points PLAYER_3 (aget 0 (points g) 2) ;;
  results_set_points PLAYER_4 (aget 0 (points g) 3) ;;
  core_set_nextround (nextplaystyle g) ;;
  core_set_curchooser (chooser g) ;;
  table <- read_minigame_list ;;
  minigame_loadnext
    (internalname
       (aget (mkMinigame EmptyString) table (Z.to_nat (curgame g)))).

Definition savestate_clear : M unit :=
  cansave <- read_cansave ;;
  if negb (truth cansave) then ret tt else
  update_gamesave (set_crashedflag 0) ;;
  g <- read_gamesave ;;
  eeprom_write_bytes (GameSave_bytes g) 0 sizeof_GameSave.

(** [savestate_setblacklist(list)]; the argument is [lst] here.
    [(list[i] & 0x01) << i] is an [int], brought to [uint32_t] by the
    [|=].  The function is the C code for at most 32 registered minigames
    and a [list] with an entry for each: beyond that the shift by [i] and
    the read of [list[i]] are undefined in C, and what is written here
    for them is not claimed of the program.  The theorems on the
    blacklist below keep within these bounds. *)
Definition savestate_setblacklist (lst : list bool) : M unit :=
  count <- read_minigame_count ;;
  let bitfield :=
    for_ count 0
      (fun i bitfield =>
         Z.lor bitfield
           (u32 (Z.shiftl (Z.land (int_of_bool (aget false lst i)) 1)
                          (Z.of_nat i))))
      0 in
  update_gamesave (set_blacklist bitfield).

(** [savestate_getblacklist(list)]; the caller's array, as filled in, is
    returned.  As for [savestate_setblacklist], this is the C code for at
    most 32 registered minigames and an array with an entry for each. *)
Definition savestate_getblacklist (lst : list bool) : M (list bool) :=
  count <- read_minigame_count ;;
  g <- read_gamesave ;;
  ret (for_ count 0
         (fun i lst =>
            aset lst i
              (truth (Z.land (Z.shiftr (blacklist g) (Z.of_nat i)) 1)))
         lst).

(** ** The life of the program

    The console starts with the statics of the file zeroed and nothing
    logged; the chip, its contents and the state of the game are
    whatever they are. *)

Definition boot (t : eeprom_type_t) (e : list Z) (gm : GameState)
    (count : nat) (table : list Minigame) : World :=
  {| global_cansave := 0;
     global_gamesave := memset_GameSave 0;
     eeprom_type := t;
     eeprom := e;
     game := gm;
     global_minigame_count := count;
     global_minigame_list := table;
     calls := [] |}.

(** From then on the menu and the game call the functions of the file in
    any order, and between two calls the game moves on. *)
Inductive Op :=
| DoInitialize
| DoCheckcrashed
| DoSave (configonly : bool)
| DoLoad
| DoClear
| DoSetblacklist (lst : list bool)
| DoGetblacklist (lst : list bool)
| DoPlay (gm : GameState) (count : nat) (table : list Minigame).

Definition step (w : World) (o : Op) : World :=
  match o with
  | DoInitialize => exec savestate_initialize w
  | DoCheckcrashed => exec savestate_checkcrashed w
  | DoSave configonly => exec (savestate_save configonly) w
  | DoLoad => exec savestate_load w
  | DoClear => exec savestate_clear w
  | DoSetblacklist lst => exec (savestate_setblacklist lst) w
  | DoGetblacklist lst => exec (savestate_getblacklist lst) w
  | DoPlay gm count table =>
      mkWorld (global_cansave w) (global_gamesave w) (eeprom_type w)
        (eeprom w) gm count table (calls w)
  end.

Definition run (ops : list Op) (w : World) : World := fold_left step ops w.

(** ** What the functions come to

    Closed descriptions of the effect of each function, proved equal to
    the functions below. *)

(** The captured state, as [savestate_save] leaves it in the record
    before the checksum is taken. *)
Definition captured (gm : GameState) (g : GameSave) : GameSave :=
  {| header := header g;
     blacklist := blacklist g;
     crashedflag := 1;
     aidiff := u8 (cur_aidifficulty gm);
     pointstowin := u8 (cur_points_to_win gm);
     nextplaystyle := u8 (cur_nextround gm);
     playerconts :=
       for_ MAXPLAYERS 0
         (fun i a => aset a i (int_of_bool (aget false (cur_playerconts gm) i)))
         (playerconts g);
     points :=
       for_ MAXPLAYERS 0
         (fun i a => aset a i (u8 (cur_points gm (PLAYER_1 + Z.of_nat i))))
         (points g);
     chooser := u8 (cur_curchooser gm);
     curgame := u8 (cur_minigame_index gm);
     checksum := checksum g;
     tailpad := tailpad g |}.

Definition capture_calls : list Call :=
  [ Call_core_get_playerconts; Call_core_get_aidifficulty;
    Call_results_get_points_to_win;
    Call_results_get_points PLAYER_1; Call_results_get_points PLAYER_2;
    Call_results_get_points PLAYER_3; Call_results_get_points PLAYER_4;
    Call_core_get_nextround; Call_core_get_curchooser;
    Call_minigame_get_index ].

(** The calls [savestate_load] makes for the record [g]. *)
Definition load_calls (table : list Minigame) (g : GameSave) : list Call :=
  [ Call_core_set_playercount
      [ truth (aget 0 (playerconts g) 0); truth (aget 0 (playerconts g) 1);
        truth (aget 0 (playerconts g) 2); truth (aget 0 (playerconts g) 3) ];
    Call_core_set_aidifficulty (aidiff g);
    Call_results_set_points_to_win (pointstowin g);
    Call_results_set_points PLAYER_1 (aget 0 (points g) 0);
    Call_results_set_points PLAYER_2 (aget 0 (points g) 1);
    Call_results_set_points PLAYER_3 (aget 0 (points g) 2);
    Call_results_set_points PLAYER_4 (aget 0 (points g) 3);
    Call_core_set_nextround (nextplaystyle g);
    Call_core_set_curchooser (chooser g);
    Call_minigame_loadnext
      (internalname
         (aget (mkMinigame EmptyString) table (Z.to_nat (curgame g)))) ].

(** The record [savestate_initialize] formats. *)
Definition formatted : GameSave :=
  {| header := [chr "N"; chr "B"; chr "G"; chr "J"];
     blacklist := 0;
     crashedflag := 0;
     aidiff := 0;
     pointstowin := 0;
     nextplaystyle := 0;
     playerconts := [0; 0; 0; 0];
     points := [0; 0; 0; 0];
     chooser := 0;
     curgame := 0;
     checksum := 33;
     tailpad := [0] |}.

(** The bitfield [savestate_setblacklist] builds. *)
Definition pack (count : nat) (lst : list bool) : Z :=
  for_ count 0
    (fun i bitfield =>
       Z.lor bitfield
         (u32 (Z.shiftl (Z.land (int_of_bool (aget false lst i)) 1)
                        (Z.of_nat i))))
    0.

(** The array [savestate_getblacklist] fills in. *)
Definition unpack (count : nat) (bl : Z) (lst : list bool) : list bool :=
  for_ count 0
    (fun i lst => aset lst i (truth (Z.land (Z.shiftr bl (Z.of_nat i)) 1)))
    lst.

(** The number whose binary digits are the flags, lowest first. *)
Definition bits_value (flags : list bool) : Z :=
  fold_right (fun b acc => 2 * acc + int_of_bool b) 0 flags.

(** Without a chip the file is switched off and has seen no crash. *)
Definition switched_off (w : World) : Prop :=
  eeprom_type w = EEPROM_NONE /\
  global_cansave w = 0 /\
  crashedflag (global_gamesave w) = 0.


(** ** Sample worlds *)

Definition sample_game : GameState :=
  {| cur_playerconts := [true; true; true; false];
     cur_aidifficulty := 2;
     cur_points_to_win := 5;
     cur_points := fun player => 10 * (player + 1);
     cur_nextround := 1;
     cur_curchooser := 2;
     cur_minigame_index := 3 |}.

Definition sample_table : list Minigame :=
  map mkMinigame ["alpha"; "bravo"; "charlie"; "delta"; "echo"]%string.

(** A chip that was never written. *)
Definition blank_eeprom : list Z := repeat 255 512.

(** A console with a blank chip, before and after [savestate_initialize]. *)
Definition fresh_console : World :=
  boot EEPROM_4K blank_eeprom sample_game 5 sample_table.
Definition started_console : World := exec savestate_initialize fresh_console.

(** A console without a chip. *)
Definition bare_console : World :=
  boot EEPROM_NONE [] sample_game 5 sample_table.

(** A record left by a crash in the fourth minigame. *)
Definition crashed_record : GameSave :=
  {| header := [chr "N"; chr "B"; chr "G"; chr "J"];
     blacklist := 0;
     crashedflag := 1;
     aidiff := 1;
     pointstowin := 30;
     nextplaystyle := 2;
     playerconts := [1; 1; 1; 0];
     points := [10; 20; 5; 0];
     chooser := 1;
     curgame := 3;
     checksum := 0;
     tailpad := [0] |}.

Definition crashed_console : World :=
  with_gamesave crashed_record started_console.

(** The console with a blank chip once the format has been written by a
    config-only save and minigames 0, 2 and 3 have been excluded since. *)
Definition listed_console : World :=
  exec (savestate_setblacklist [true; false; true; true; false])
    (exec (savestate_save true) started_console).

(** ** Values that fit their C type *)

(** A value a [uint8_t] can hold. *)
Definition is_byte (z : Z) : bool := (0 <=? z) && (z <? 256).

(** A record every member of which fits its type: four header
    characters, a 32-bit blacklist, bytes everywhere else, arrays of
    [MAXPLAYERS] entries and the padding the size leaves. *)
Definition fits (g : GameSave) : bool :=
  (List.length (header g) =? 4)%nat && forallb is_byte (header g)
  && (0 <=? blacklist g) && (blacklist g <? 2 ^ 32)
  && is_byte (crashedflag g) && is_byte (aidiff g)
  && is_byte (pointstowin g) && is_byte (nextplaystyle g)
  && (List.length (playerconts g) =? MAXPLAYERS)%nat
  && forallb is_byte (playerconts g)
  && (List.length (points g) =? MAXPLAYERS)%nat
  && forallb is_byte (points g)
  && is_byte (chooser g) && is_byte (curgame g) && is_byte (checksum g)
  && (List.length (tailpad g) =? 1)%nat && forallb is_byte (tailpad g).

(** The console switched off and on again: the statics are zeroed anew,
    the chip keeps its bytes. *)
Definition reboot (w : World) (gm : GameState) (count : nat)
    (table : list Minigame) : World :=
  boot (eeprom_type w) (eeprom w) gm count table.

(** What holds of every world the program can be in: the record fits its
    types, the chip holds bytes, and the file is switched on only with a
    chip there and the header in place. *)
Definition sound (w : World) : Prop :=
  fits (global_gamesave w) = true /\
  forallb is_byte (eeprom w) = true /\
  (global_cansave w = 0 \/ global_cansave w = 1) /\
  (truth (global_cansave w) = true ->
   eeprom_type w <> EEPROM_NONE /\
   header (global_gamesave w) = [chr "N"; chr "B"; chr "G"; chr "J"]).

(** The calls that ended a recorded crash or may have replaced the
    record in memory. *)
Definition settles_crash (o : Op) : bool :=
  match o with
  | DoInitialize | DoClear => true
  | _ => false
  end.

(** The calls [savestate_load] makes when handed back what a full save
    captured from the game [gm]. *)
Definition restore_calls (gm : GameState) (table : list Minigame)
  : list Call :=
  [ Call_core_set_playercount
      [ aget false (cur_playerconts gm) 0; aget false (cur_playerconts gm) 1;
        aget false (cur_playerconts gm) 2; aget false (cur_playerconts gm) 3 ];
    Call_core_set_aidifficulty (u8 (cur_aidifficulty gm));
    Call_results_set_points_to_win (u8 (cur_points_to_win gm));
    Call_results_set_points PLAYER_1 (u8 (cur_points gm PLAYER_1));
    Call_results_set_points PLAYER_2 (u8 (cur_points gm PLAYER_2));
    Call_results_set_points PLAYER_3 (u8 (cur_points gm PLAYER_3));
    Call_results_set_points PLAYER_4 (u8 (cur_points gm PLAYER_4));
    Call_core_set_nextround (u8 (cur_nextround gm));
    Call_core_set_curchooser (u8 (cur_curchooser gm));
    Call_minigame_loadnext
      (internalname
         (aget (mkMinigame EmptyString) table
            (Z.to_nat (u8 (cur_minigame_index gm))))) ].

(** A chip that holds a record with the header in place, the crashed flag
    set and a checksum byte, 0, that matches nothing. *)
Definition stale_eeprom : list Z :=
  [78; 66; 71; 74; 0; 0; 0; 5; 1; 2; 5; 1; 1; 1; 1; 0; 10; 20; 30; 40;
   2; 3; 0; 0] ++ repeat 255 488.

(** ** The restore menu

    The second half of savestate.c is the screen shown at start-up:
    [loadsave_init], [loadsave_loop] once per frame, [loadsave_cleanup].
    It adds two statics to the file, reads the controllers and draws
    through libdragon, and asks core for a change of level. *)

(** libdragon's joypad state, as far as the file looks at it. *)
Record joypad_buttons_t := mkButtons {
  a : bool;
  c_left : bool;
  c_right : bool;
  d_left : bool;
  d_right : bool
}.

Record joypad_inputs_t := mkInputs { stick_x : Z }.

Inductive joypad_axis_t := JOYPAD_AXIS_STICK_X | JOYPAD_AXIS_STICK_Y.

(** The levels of core.h the file names. *)
Inductive Level := LEVEL_MAINMENU | LEVEL_MINIGAME.

(** What the file hands to the display and to rdpq. *)
Inductive color_t := RGBA32 (r g b alpha : Z).

Inductive rdpq_align_t := ALIGN_LEFT | ALIGN_CENTER | ALIGN_RIGHT.

(** [rdpq_textparms_t]; the members an initializer leaves out are zero. *)
Record rdpq_textparms_t := mkTextparms {
  style_id : Z;
  width : Z;
  align : rdpq_align_t
}.

Inductive resolution_t := RESOLUTION_320x240.
Inductive bitdepth_t := DEPTH_16_BPP.
Inductive gamma_t := GAMMA_NONE.
Inductive filter_options_t := FILTERS_RESAMPLE.
Inductive rdpq_combiner_t := RDPQ_COMBINER_FLAT.
Inductive rdpq_blender_t := RDPQ_BLENDER_MULTIPLY.

(** What the menu does, in the order it does it: its calls that leave
    the file and, as marks, its calls of [savestate_load] and
    [savestate_clear], whose own calls the world logs.  (Its calls of
    [savestate_checkcrashed] only read and are not marked.) *)
Inductive UiCall :=
| Ui_display_init (res : resolution_t) (bit : bitdepth_t) (num_buffers : Z)
    (gamma : gamma_t) (filters : filter_options_t)
| Ui_rdpq_font_load (fn : string)
| Ui_rdpq_text_register_font (font_id : Z) (font : Z)
| Ui_rdpq_font_style (font : Z) (style : Z) (color : color_t)
| Ui_core_level_changeto (level : Level)
| Ui_savestate_load
| Ui_savestate_clear
| Ui_display_get
| Ui_rdpq_attach (surface : Z)
| Ui_rdpq_set_mode_standard
| Ui_rdpq_mode_combiner (comb : rdpq_combiner_t)
| Ui_rdpq_mode_blender (blend : rdpq_blender_t)
| Ui_rdpq_set_prim_color (color : color_t)
| Ui_rdpq_fill_rectangle (x0 y0 x1 y1 : Z)
| Ui_rdpq_text_print (parms : rdpq_textparms_t) (font_id : Z) (x0 y0 : Z)
    (text : string)
| Ui_rdpq_detach_show
| Ui_rdpq_text_unregister_font (font_id : Z)
| Ui_rdpq_font_free (font : Z)
| Ui_display_close.

Record Screen := mkScreen {
  global_selection : Z;                        (* static int *)
  global_font : Z;                             (* static rdpq_font_t* *)
  world : World;                               (* the rest of the file *)
  joypad_inputs : nat -> joypad_inputs_t;      (* by controller port *)
  joypad_buttons_pressed : nat -> joypad_buttons_t;
  joypad_axis_pressed : nat -> joypad_axis_t -> Z;
  font_file : string -> Z;                     (* the font a file loads as *)
  framebuffer : Z;                             (* the surface to draw on *)
  shown : list UiCall                          (* oldest first *)
}.

Definition with_selection v s :=
  mkScreen v (global_font s) (world s) (joypad_inputs s)
    (joypad_buttons_pressed s) (joypad_axis_pressed s) (font_file s)
    (framebuffer s) (shown s).
Definition with_font v s :=
  mkScreen (global_selection s) v (world s) (joypad_inputs s)
    (joypad_buttons_pressed s) (joypad_axis_pressed s) (font_file s)
    (framebuffer s) (shown s).
Definition with_world v s :=
  mkScreen (global_selection s) (global_font s) v (joypad_inputs s)
    (joypad_buttons_pressed s) (joypad_axis_pressed s) (font_file s)
    (framebuffer s) (shown s).
Definition with_shown v s :=
  mkScreen (global_selection s) (global_font s) (world s) (joypad_inputs s)
    (joypad_buttons_pressed s) (joypad_axis_pressed s) (font_file s)
    (framebuffer s) v.

(** An [int] after [++] or [--]. *)
Definition s32 (z : Z) : Z := (z + 2 ^ 31) mod 2 ^ 32 - 2 ^ 31.

(** A call that leaves the file. *)
Definition ui (c : UiCall) (s : Screen) : Screen :=
  with_shown (shown s ++ [c]) s.

(** A call of a function of the first half of the file that changes its
    state: marked in the log and run on the world of the screen. *)
Definition in_world {A} (mark : UiCall) (m : M A) (s : Screen) : Screen :=
  with_world (exec m (world s)) (ui mark s).

(** [savestate_checkcrashed()] as the menu uses it: the answer; the call
    leaves the world as it is. *)
Definition crashed (s : Screen) : bool :=
  result savestate_checkcrashed (world s).

(** [for (int i = 0; i < n; i++) if (test i) return true; return false;] *)
Fixpoint for_return (n : nat) (i : nat) (test : nat -> bool) : bool :=
  match n with
  | O => false
  | S n' => if test i then true else for_return n' (S i) test
  end.

(** A line break in a string. *)
Definition nl : string := String (ascii_of_nat 10) EmptyString.

Definition controller_isleft (s : Screen) : bool :=
  for_return MAXPLAYERS 0 (fun i =>
    let stick := joypad_inputs s i in
    c_left (joypad_buttons_pressed s i)
    || d_left (joypad_buttons_pressed s i)
    || ((joypad_axis_pressed s i JOYPAD_AXIS_STICK_X =? -1)
        && (stick_x stick <? -20))).

Definition controller_isright (s : Screen) : bool :=
  for_return MAXPLAYERS 0 (fun i =>
    let stick := joypad_inputs s i in
    c_right (joypad_buttons_pressed s i)
    || d_right (joypad_buttons_pressed s i)
    || ((joypad_axis_pressed s i JOYPAD_AXIS_STICK_X =? 1)
        && (stick_x stick >? 20))).

Definition controller_isa (s : Screen) : bool :=
  for_return MAXPLAYERS 0 (fun i => a (joypad_buttons_pressed s i)).

Definition loadsave_init (s : Screen) : Screen :=
  let s :=
    ui (Ui_display_init RESOLUTION_320x240 DEPTH_16_BPP 3 GAMMA_NONE
          FILTERS_RESAMPLE) s in
  let s := ui (Ui_rdpq_font_load "rom:/squarewave_l.font64") s in
  let s := with_font (font_file s "rom:/squarewave_l.font64") s in
  let s := ui (Ui_rdpq_text_register_font 1 (global_font s)) s in
  let s :=
    ui (Ui_rdpq_font_style (global_font s) 1 (RGBA32 255 255 255 255)) s in
  let s :=
    ui (Ui_rdpq_font_style (global_font s) 2 (RGBA32 148 145 8 255)) s in
  let s := with_selection 0 s in
  if negb (crashed s) && truth (global_cansave (world s))
  then ui (Ui_core_level_changeto LEVEL_MAINMENU) s
  else s.

Definition loadsave_loop (s : Screen) : Screen :=
  let maxselection := 2 in
  if negb (crashed s) && truth (global_cansave (world s)) then s else
  let maxselection :=
    if negb (truth (global_cansave (world s))) then 1 else maxselection in
  (* Handle controls *)
  let s :=
    if controller_isleft s then
      let s := with_selection (s32 (global_selection s + 1)) s in
      if global_selection s >? maxselection - 1
      then with_selection 0 s else s
    else if controller_isright s then
      let s := with_selection (s32 (global_selection s - 1)) s in
      if global_selection s <? 0
      then with_selection (maxselection - 1) s else s
    else if controller_isa s then
      if crashed s && (global_selection s =? 0) then
        let s := in_world Ui_savestate_load savestate_load s in
        ui (Ui_core_level_changeto LEVEL_MINIGAME) s
      else
        let s :=
          if crashed s
          then in_world Ui_savestate_clear savestate_clear s
          else s in
        ui (Ui_core_level_changeto LEVEL_MAINMENU) s
    else s in
  (* Get a framebuffer *)
  let s := ui Ui_display_get s in
  let disp := framebuffer s in
  let s := ui (Ui_rdpq_attach disp) s in
  (* Black background *)
  let s := ui Ui_rdpq_set_mode_standard s in
  let s := ui (Ui_rdpq_mode_combiner RDPQ_COMBINER_FLAT) s in
  let s := ui (Ui_rdpq_mode_blender RDPQ_BLENDER_MULTIPLY) s in
  let s := ui (Ui_rdpq_set_prim_color (RGBA32 0 0 0 255)) s in
  let s := ui (Ui_rdpq_fill_rectangle 0 0 320 240) s in
  (* Render text *)
  let s :=
    if crashed s then
      let s :=
        ui (Ui_rdpq_text_print (mkTextparms 1 320 ALIGN_CENTER) 1
              0 (240 / 2 - 32)
              (String.append "A crash was detected."
                 (String.append nl "Would you like to restore the save?")))
           s in
      let s :=
        ui (Ui_rdpq_text_print
              (mkTextparms (if global_selection s =? 0 then 2 else 1)
                 0 ALIGN_LEFT)
              1 (320 / 2 - 64) (240 / 2 + 32) "Yes") s in
      ui (Ui_rdpq_text_print
            (mkTextparms (if global_selection s =? 1 then 2 else 1)
               0 ALIGN_LEFT)
            1 (320 / 2 + 64) (240 / 2 + 32) "No") s
    else
      let s :=
        ui (Ui_rdpq_text_print (mkTextparms 1 320 ALIGN_CENTER) 1
              0 (240 / 2 - 48)
              (String.append "EEPROM save was not detected."
                 (String.append nl
                    (String.append nl
                       (String.append "If the game crashes, you will"
                          (String.append nl
                             "not be able to restore it."))))))
           s in
      ui (Ui_rdpq_text_print
            (mkTextparms (if global_selection s =? 0 then 2 else 1)
               320 ALIGN_CENTER)
            1 0 (240 / 2 + 64) "Ok") s in
  (* Done *)
  ui Ui_rdpq_detach_show s.

Definition loadsave_cleanup (s : Screen) : Screen :=
  let s := ui (Ui_rdpq_text_unregister_font 1) s in
  let s := ui (Ui_rdpq_font_free (global_font s)) s in
  ui Ui_display_close s.

(** *** What the menu draws *)

(** The options the menu offers: "Yes" and "No" with the file switched
    on, "Ok" alone without a chip. *)
Definition options (s : Screen) : Z :=
  if truth (global_cansave (world s)) then 2 else 1.

Definition backdrop (disp : Z) : list UiCall :=
  [ Ui_display_get; Ui_rdpq_attach disp; Ui_rdpq_set_mode_standard;
    Ui_rdpq_mode_combiner RDPQ_COMBINER_FLAT;
    Ui_rdpq_mode_blender RDPQ_BLENDER_MULTIPLY;
    Ui_rdpq_set_prim_color (RGBA32 0 0 0 255);
    Ui_rdpq_fill_rectangle 0 0 320 240 ].

(** The question after a crash, with the option [selection] in the
    highlight style, 2. *)
Definition crash_prompt (selection : Z) : list UiCall :=
  [ Ui_rdpq_text_print (mkTextparms 1 320 ALIGN_CENTER) 1 0 88
      (String.append "A crash was detected."
         (String.append nl "Would you like to restore the save?"));
    Ui_rdpq_text_print
      (mkTextparms (if selection =? 0 then 2 else 1) 0 ALIGN_LEFT)
      1 96 152 "Yes";
    Ui_rdpq_text_print
      (mkTextparms (if selection =? 1 then 2 else 1) 0 ALIGN_LEFT)
      1 224 152 "No" ].

(** The notice shown when no crash is on record. *)
Definition eeprom_notice (selection : Z) : list UiCall :=
  [ Ui_rdpq_text_print (mkTextparms 1 320 ALIGN_CENTER) 1 0 72
      (String.append "EEPROM save was not detected."
         (String.append nl
            (String.append nl
               (String.append "If the game crashes, you will"
                  (String.append nl "not be able to restore it.")))));
    Ui_rdpq_text_print
      (mkTextparms (if selection =? 0 then 2 else 1) 320 ALIGN_CENTER)
      1 0 184 "Ok" ].

(** One frame of the menu. *)
Definition frame (is_crashed : bool) (selection disp : Z) : list UiCall :=
  backdrop disp
  ++ (if is_crashed then crash_prompt selection else eeprom_notice selection)
  ++ [Ui_rdpq_detach_show].

(** What [loadsave_init] asks of the display. *)
Definition init_calls (font : Z) : list UiCall :=
  [ Ui_display_init RESOLUTION_320x240 DEPTH_16_BPP 3 GAMMA_NONE
      FILTERS_RESAMPLE;
    Ui_rdpq_font_load "rom:/squarewave_l.font64";
    Ui_rdpq_text_register_font 1 font;
    Ui_rdpq_font_style font 1 (RGBA32 255 255 255 255);
    Ui_rdpq_font_style font 2 (RGBA32 148 145 8 255) ].

(** *** Sample screens *)

Definition idle_pad : joypad_buttons_t := mkButtons false false false false false.

(** The menu over a world, with player 2 pressing [buttons] and every
    stick at rest. *)
Definition screen_over (w : World) (selection : Z) (buttons : joypad_buttons_t)
  : Screen :=
  {| global_selection := selection;
     global_font := 4096;
     world := w;
     joypad_inputs := fun _ => mkInputs 0;
     joypad_buttons_pressed :=
       fun port => if (port =? 1)%nat then buttons else idle_pad;
     joypad_axis_pressed := fun _ _ => 0;
     font_file := fun _ => 4096;
     framebuffer := 8192;
     shown := [] |}.

(** What the loop does with the controllers before it draws. *)
Definition controls (s : Screen) : Screen :=
  if controller_isleft s then
    if s32 (global_selection s + 1) >? options s - 1
    then with_selection 0 s
    else with_selection (s32 (global_selection s + 1)) s
  else if controller_isright s then
    if s32 (global_selection s - 1) <? 0
    then with_selection (options s - 1) s
    else with_selection (s32 (global_selection s - 1)) s
  else if controller_isa s then
    if crashed s && (global_selection s =? 0)
    then
      ui (Ui_core_level_changeto LEVEL_MINIGAME)
        (in_world Ui_savestate_load savestate_load s)
    else
      ui (Ui_core_level_changeto LEVEL_MAINMENU)
        (if crashed s
         then in_world Ui_savestate_clear savestate_clear s
         else s)
  else s.

(** *** Frame after frame *)

(** What happens between two frames of the menu: the rest of the program
    may call the first half of the file, the controllers are polled anew
    and the display hands out another surface. *)
Record FrameInput := mkFrameInput {
  frame_calls : list Op;
  frame_inputs : nat -> joypad_inputs_t;
  frame_buttons_pressed : nat -> joypad_buttons_t;
  frame_axis_pressed : nat -> joypad_axis_t -> Z;
  frame_surface : Z
}.

Definition next_frame (f : FrameInput) (s : Screen) : Screen :=
  {| global_selection := global_selection s;
     global_font := global_font s;
     world := run (frame_calls f) (world s);
     joypad_inputs := frame_inputs f;
     joypad_buttons_pressed := frame_buttons_pressed f;
     joypad_axis_pressed := frame_axis_pressed f;
     font_file := font_file s;
     framebuffer := frame_surface f;
     shown := shown s |}.

(** [loadsave_loop] called once per frame. *)
Definition run_frames (frames : list FrameInput) (s : Screen) : Screen :=
  fold_left (fun s f => loadsave_loop (next_frame f s)) frames s.

(** * Properties *)

(** ** Running the functions *)

Lemma truth_false_iff z : truth z = false <-> z = 0.
Proof.
  unfold truth. destruct (Z.eqb_spec z 0); cbn; split; congruence.
Qed.

Lemma savestate_save_disabled configonly w :
  truth (global_cansave w) = false -> savestate_save configonly w = (tt, w).
Proof.
  intros H. unfold savestate_save, bind, read_cansave. now rewrite H.
Qed.

Lemma savestate_load_disabled w :
  truth (global_cansave w) = false -> savestate_load w = (tt, w).
Proof.
  intros H. unfold savestate_load, bind, read_cansave. now rewrite H.
Qed.

Lemma savestate_clear_disabled w :
  truth (global_cansave w) = false -> savestate_clear w = (tt, w).
Proof.
  intros H. unfold savestate_clear, bind, read_cansave. now rewrite H.
Qed.

Lemma savestate_initialize_absent w :
  eeprom_type w = EEPROM_NONE ->
  savestate_initialize w =
  (false, with_calls (calls w ++ [Call_eeprom_present]) (with_cansave 0 w)).
Proof.
  intros H. unfold savestate_initialize, bind, assign_cansave, eeprom_present,
    call. cbn. now rewrite H.
Qed.

Lemma savestate_save_full w :
  truth (global_cansave w) = true ->
  let g := captured (game w) (global_gamesave w) in
  let g' := set_checksum (calc_checksum g) g in
  savestate_save false w =
  (tt,
   with_eeprom
     (write_bytes (eeprom w) 0 (firstn sizeof_GameSave (GameSave_bytes g')))
     (with_calls
        (calls w ++ capture_calls
           ++ [Call_eeprom_write_bytes (GameSave_bytes g') 0 sizeof_GameSave])
        (with_gamesave g' w))).
Proof.
  intros H g g'. unfold savestate_save, bind, read_cansave. rewrite H.
  cbv [negb forM_ MAXPLAYERS bind ret update_gamesave read_gamesave call
       core_get_playerconts core_get_aidifficulty results_get_points_to_win
       results_get_points core_get_nextround core_get_curchooser
       minigame_get_index eeprom_write_bytes
       with_eeprom with_calls with_gamesave
       global_cansave global_gamesave eeprom_type eeprom game
       global_minigame_count global_minigame_list calls].
  repeat rewrite <- app_assoc. reflexivity.
Qed.

Ltac run_calls :=
  cbv [negb bind ret update_gamesave read_gamesave read_minigame_list
       read_minigame_count assign_cansave call
       eeprom_present eeprom_read_bytes eeprom_write_bytes
       core_set_playercount core_set_aidifficulty results_set_points_to_win
       results_set_points core_set_nextround core_set_curchooser
       minigame_loadnext
       with_eeprom with_calls with_gamesave with_cansave
       global_cansave global_gamesave eeprom_type eeprom game
       global_minigame_count global_minigame_list calls].

Lemma savestate_save_configonly w :
  truth (global_cansave w) = true ->
  let g := global_gamesave w in
  savestate_save true w =
  (tt,
   with_eeprom
     (write_bytes (eeprom w) 0 (firstn sizeof_GameSave (GameSave_bytes g)))
     (with_calls
        (calls w ++ [Call_eeprom_write_bytes (GameSave_bytes g) 0 sizeof_GameSave])
        w)).
Proof.
  intros H g. unfold savestate_save, bind, read_cansave. rewrite H.
  run_calls. reflexivity.
Qed.

Lemma savestate_clear_enabled w :
  truth (global_cansave w) = true ->
  let g := set_crashedflag 0 (global_gamesave w) in
  savestate_clear w =
  (tt,
   with_eeprom
     (write_bytes (eeprom w) 0 (firstn sizeof_GameSave (GameSave_bytes g)))
     (with_calls
        (calls w ++ [Call_eeprom_write_bytes (GameSave_bytes g) 0 sizeof_GameSave])
        (with_gamesave g w))).
Proof.
  intros H g. unfold savestate_clear, bind, read_cansave. rewrite H.
  run_calls. reflexivity.
Qed.

Lemma savestate_load_enabled w :
  truth (global_cansave w) = true ->
  savestate_load w =
  (tt,
   with_calls
     (calls w ++ load_calls (global_minigame_list w) (global_gamesave w)) w).
Proof.
  intros H. unfold savestate_load, bind, read_cansave. rewrite H.
  run_calls. repeat rewrite <- app_assoc. reflexivity.
Qed.

Lemma savestate_initialize_present w :
  eeprom_type w <> EEPROM_NONE ->
  savestate_initialize w =
  (true,
   with_gamesave
     (if strncmp (read_bytes (read_bytes (eeprom w) 0 sizeof_GameSave) 0 4)
           (cstring "NBGJ") 4 =? 0
      then GameSave_of_bytes (read_bytes (eeprom w) 0 sizeof_GameSave)
      else formatted)
     (with_calls
        (calls w ++ [Call_eeprom_present;
                     Call_eeprom_read_bytes 0 sizeof_GameSave])
        (with_cansave 1 w))).
Proof.
  intros H. destruct w as [cs g t e gm n tb cl]; cbn [eeprom_type] in H.
  unfold savestate_initialize, bind, assign_cansave, eeprom_present, call.
  cbv [eeprom_type with_cansave].
  destruct t; [congruence| |];
    cbv [eeprom_type_eqb];
    run_calls; cbv [header GameSave_of_bytes offsetof_header];
    destruct (strncmp _ _ _ =? 0);
    cbv [negb]; run_calls; repeat rewrite <- app_assoc; reflexivity.
Qed.

(** ** Bytes and checksums *)

Lemma u8_add_l a b : u8 (u8 a + b) = u8 (a + b).
Proof. unfold u8. apply Z.add_mod_idemp_l. lia. Qed.

(** [calc_checksum] adds the checksum byte in with the others. *)
Lemma calc_checksum_others g :
  calc_checksum g = u8 (sum_other_bytes g + checksum g).
Proof.
  destruct g as [h bl cf ad pw np pc pt ch cg ck tp].
  cbv [calc_checksum sum_other_bytes GameSave_bytes read_bytes bytes_of_u32
       for_ fold_left firstn skipn app map seq aget sizeof_GameSave
       offsetof_checksum MAXPLAYERS Nat.add Nat.sub Nat.mul
       header blacklist crashedflag aidiff pointstowin nextplaystyle
       playerconts points chooser curgame checksum tailpad].
  cbn [nth].
  repeat (rewrite u8_add_l || rewrite <- (Z.add_assoc (u8 _))).
  f_equal. ring.
Qed.

(** The checksum byte takes no part in [sum_other_bytes]. *)
Lemma sum_other_bytes_set_checksum c g :
  sum_other_bytes (set_checksum c g) = sum_other_bytes g.
Proof.
  unfold sum_other_bytes. destruct g. f_equal.
Qed.

Lemma length_GameSave_bytes g :
  List.length (GameSave_bytes g) = sizeof_GameSave.
Proof. reflexivity. Qed.

Lemma strncmp_magic a b c d :
  strncmp [a; b; c; d] (cstring "NBGJ") 4 = 0 <->
  [a; b; c; d] = [chr "N"; chr "B"; chr "G"; chr "J"].
Proof.
  change (cstring "NBGJ") with [78; 66; 71; 74; 0].
  change [chr "N"; chr "B"; chr "G"; chr "J"] with [78; 66; 71; 74].
  cbn [strncmp hd tl].
  destruct (Z.eqb_spec a 78) as [->|Ha]; [|split; [lia|congruence]].
  destruct (Z.eqb_spec b 66) as [->|Hb]; [|split; [cbn; lia|congruence]].
  destruct (Z.eqb_spec c 71) as [->|Hc]; [|split; [cbn; lia|congruence]].
  destruct (Z.eqb_spec d 74) as [->|Hd]; [|split; [cbn; lia|congruence]].
  cbn. tauto.
Qed.

Lemma length_aset {A} (a : list A) i v : List.length (aset a i v) = List.length a.
Proof.
  revert i; induction a as [|x a IH]; intros [|i]; cbn; auto.
Qed.

Lemma nth_aset {A} (a : list A) i v k d :
  nth k (aset a i v) d =
  if (k =? i)%nat && (k <? List.length a)%nat then v else nth k a d.
Proof.
  revert i k; induction a as [|x a IH]; intros [|i] [|k];
    cbn [aset nth List.length Nat.eqb Nat.ltb Nat.leb andb];
    try reflexivity.
  - now rewrite andb_false_r.
  - rewrite IH. reflexivity.
Qed.

Lemma length_write_bytes src : forall data start,
  List.length (write_bytes data start src) = List.length data.
Proof.
  induction src as [|b src IH]; intros; cbn; auto.
  now rewrite IH, length_aset.
Qed.

Lemma nth_write_bytes src : forall data start k d,
  nth k (write_bytes data start src) d =
  if (start <=? k)%nat && (k <? start + List.length src)%nat
     && (k <? List.length data)%nat
  then nth (k - start) src d else nth k data d.
Proof.
  induction src as [|b src IH]; intros data start k d; cbn [write_bytes List.length].
  - destruct (start <=? k)%nat eqn:E1, (k <? start + 0)%nat eqn:E2; cbn; auto.
    apply Nat.leb_le in E1. apply Nat.ltb_lt in E2. lia.
  - rewrite IH, length_aset, nth_aset.
    destruct (Nat.leb_spec (S start) k), (Nat.leb_spec start k),
      (Nat.ltb_spec k (S start + List.length src)),
      (Nat.ltb_spec k (start + S (List.length src))),
      (Nat.ltb_spec k (List.length data)), (Nat.eqb_spec k start);
      cbn [andb]; try lia; auto.
    + replace (k - start)%nat with (S (k - S start)) by lia. reflexivity.
    + subst. now rewrite Nat.sub_diag.
Qed.

Lemma nth_map_seq (f : nat -> Z) len : forall s k,
  (k < len)%nat -> nth k (map f (seq s len)) 0 = f (s + k)%nat.
Proof.
  induction len as [|len IH]; intros s [|k] H; cbn [seq map nth]; try lia.
  - f_equal. lia.
  - rewrite IH by lia. f_equal. lia.
Qed.

Lemma nth_read_bytes l start len k :
  (k < len)%nat -> nth k (read_bytes l start len) 0 = nth (start + k) l 0.
Proof.
  intros H. unfold read_bytes, aget. now rewrite nth_map_seq.
Qed.

(** ** The blacklist bits *)

Lemma savestate_setblacklist_run lst w :
  savestate_setblacklist lst w =
  (tt, with_gamesave
         (set_blacklist (pack (global_minigame_count w) lst)
            (global_gamesave w)) w).
Proof. reflexivity. Qed.

Lemma savestate_getblacklist_run lst w :
  savestate_getblacklist lst w =
  (unpack (global_minigame_count w) (blacklist (global_gamesave w)) lst, w).
Proof. reflexivity. Qed.

Lemma testbit_one_bit b i k :
  Z.testbit (u32 (Z.shiftl (Z.land (int_of_bool b) 1) (Z.of_nat i)))
    (Z.of_nat k)
  = b && (k =? i)%nat && (k <? 32)%nat.
Proof.
  unfold u32. destruct b; cbn [int_of_bool andb].
  - change (Z.land 1 1) with 1. rewrite Z.shiftl_1_l.
    destruct (Nat.ltb_spec k 32).
    + rewrite Z.mod_pow2_bits_low by lia.
      rewrite Z.pow2_bits_eqb by lia.
      rewrite andb_true_r.
      destruct (Nat.eqb_spec k i), (Z.eqb_spec (Z.of_nat i) (Z.of_nat k));
        auto; lia.
    + rewrite Z.mod_pow2_bits_high by lia. now rewrite andb_false_r.
  - change (Z.land 0 1) with 0. rewrite Z.shiftl_0_l.
    change (0 mod 2 ^ 32) with 0. apply Z.testbit_0_l.
Qed.

Lemma testbit_for_pack lst k : forall n i acc,
  Z.testbit
    (for_ n i
       (fun i bitfield =>
          Z.lor bitfield
            (u32 (Z.shiftl (Z.land (int_of_bool (aget false lst i)) 1)
                           (Z.of_nat i))))
       acc) (Z.of_nat k)
  = Z.testbit acc (Z.of_nat k)
    || ((i <=? k)%nat && (k <? i + n)%nat && (k <? 32)%nat
        && nth k lst false).
Proof.
  induction n as [|n IH]; intros i acc; cbn [for_].
  - replace (k <? i + 0)%nat with (k <? i)%nat by (f_equal; lia).
    destruct (Nat.leb_spec i k), (Nat.ltb_spec k i); try lia;
      cbn [andb]; now rewrite orb_false_r.
  - rewrite IH, Z.lor_spec, testbit_one_bit. unfold aget.
    destruct (Z.testbit acc (Z.of_nat k)); cbn [orb]; [reflexivity|].
    destruct (Nat.eqb_spec k i) as [Heq|Hne].
    + rewrite <- Heq.
      destruct (Nat.leb_spec (S k) k), (Nat.leb_spec k k),
        (Nat.ltb_spec k (S k + n)), (Nat.ltb_spec k (k + S n));
        try lia.
      destruct (nth k lst false), (k <? 32)%nat; reflexivity.
    + rewrite andb_false_r. cbn [andb orb].
      destruct (Nat.leb_spec (S i) k), (Nat.leb_spec i k),
        (Nat.ltb_spec k (S i + n)), (Nat.ltb_spec k (i + S n));
        try lia; reflexivity.
Qed.

(** Bit [k] of the packed field is flag [k], for the flags that were
    packed and that a 32-bit field has room for. *)
Lemma testbit_pack count lst k :
  Z.testbit (pack count lst) (Z.of_nat k)
  = (k <? count)%nat && (k <? 32)%nat && nth k lst false.
Proof.
  unfold pack. rewrite testbit_for_pack, Z.testbit_0_l. cbn.
  reflexivity.
Qed.

Lemma truth_bit bl i :
  truth (Z.land (Z.shiftr bl (Z.of_nat i)) 1) = Z.testbit bl (Z.of_nat i).
Proof.
  rewrite Z.testbit_odd.
  change 1 with (Z.ones 1). rewrite Z.land_ones by lia.
  change (2 ^ 1) with 2. rewrite Zmod_odd. unfold truth.
  now destruct (Z.odd _).
Qed.

Lemma length_unpack bl : forall n i lst,
  List.length (for_ n i
            (fun i lst => aset lst i (truth (Z.land (Z.shiftr bl (Z.of_nat i)) 1)))
            lst) = List.length lst.
Proof.
  induction n as [|n IH]; intros; cbn [for_]; auto.
  now rewrite IH, length_aset.
Qed.

Lemma nth_for_unpack bl k : forall n i lst,
  nth k (for_ n i
           (fun i lst => aset lst i (truth (Z.land (Z.shiftr bl (Z.of_nat i)) 1)))
           lst) false
  = if (i <=? k)%nat && (k <? i + n)%nat && (k <? List.length lst)%nat
    then Z.testbit bl (Z.of_nat k) else nth k lst false.
Proof.
  induction n as [|n IH]; intros i lst; cbn [for_].
  - destruct (Nat.leb_spec i k), (Nat.ltb_spec k (i + 0)); try lia; reflexivity.
  - rewrite IH, length_aset, nth_aset, truth_bit.
    destruct (Nat.leb_spec (S i) k), (Nat.leb_spec i k),
      (Nat.ltb_spec k (S i + n)), (Nat.ltb_spec k (i + S n)),
      (Nat.ltb_spec k (List.length lst)), (Nat.eqb_spec k i);
      cbn [andb]; try lia; subst; reflexivity.
Qed.

(** Unpacking what was packed gives the flags back, as long as the field
    has a bit for each of them. *)
Lemma unpack_pack count flags out :
  List.length flags = count -> List.length out = count -> (count <= 32)%nat ->
  unpack count (pack count flags) out = flags.
Proof.
  intros Hf Ho Hc. apply (nth_ext _ _ false false).
  - unfold unpack. rewrite length_unpack. congruence.
  - intros k Hk. unfold unpack in *. rewrite length_unpack in Hk.
    rewrite nth_for_unpack, testbit_pack.
    destruct (Nat.leb_spec 0 k), (Nat.ltb_spec k (0 + count)),
      (Nat.ltb_spec k (List.length out)), (Nat.ltb_spec k count),
      (Nat.ltb_spec k 32); cbn [andb]; try lia; reflexivity.
Qed.

Lemma lor_u32_range a b :
  0 <= a < 2 ^ 32 -> 0 <= b < 2 ^ 32 -> 0 <= Z.lor a b < 2 ^ 32.
Proof.
  intros Ha Hb. assert (H0 : 0 <= Z.lor a b) by (apply Z.lor_nonneg; lia).
  split; [exact H0|].
  destruct (Z.eq_dec (Z.lor a b) 0) as [->|Hne]; [reflexivity|].
  apply Z.log2_lt_pow2; [lia|].
  rewrite Z.log2_lor by lia.
  apply Z.max_lub_lt.
  - destruct (Z.eq_dec a 0) as [->|]; [cbn; lia|apply Z.log2_lt_pow2; lia].
  - destruct (Z.eq_dec b 0) as [->|]; [cbn; lia|apply Z.log2_lt_pow2; lia].
Qed.

(** The packed field is a 32-bit value. *)
Lemma pack_range count lst : 0 <= pack count lst < 2 ^ 32.
Proof.
  unfold pack.
  assert (H : forall n i acc, 0 <= acc < 2 ^ 32 ->
    0 <= for_ n i
           (fun i bitfield =>
              Z.lor bitfield
                (u32 (Z.shiftl (Z.land (int_of_bool (aget false lst i)) 1)
                               (Z.of_nat i)))) acc < 2 ^ 32).
  { induction n as [|n IH]; intros i acc Hacc; cbn [for_]; [exact Hacc|].
    apply IH, lor_u32_range; [exact Hacc|].
    unfold u32. apply Z.mod_pos_bound. lia. }
  apply H. lia.
Qed.

(** ** The checksum after a save and after a clear *)

(** What the full save stores in the checksum byte: the sum of the other
    bytes plus the checksum byte it found. *)
Lemma savestate_save_checksum w :
  truth (global_cansave w) = true ->
  let g' := global_gamesave (exec (savestate_save false) w) in
  checksum g' = u8 (sum_other_bytes g' + checksum (global_gamesave w)).
Proof.
  intros H. unfold exec. rewrite (savestate_save_full w H).
  cbn [snd global_gamesave with_eeprom with_calls with_gamesave].
  rewrite sum_other_bytes_set_checksum.
  cbn [checksum set_checksum]. rewrite calc_checksum_others.
  f_equal.
Qed.

(** [savestate_clear] leaves the checksum byte as it was. *)
Lemma savestate_clear_checksum w :
  checksum (global_gamesave (exec savestate_clear w))
  = checksum (global_gamesave w).
Proof.
  unfold exec. destruct (truth (global_cansave w)) eqn:H.
  - rewrite (savestate_clear_enabled w H). reflexivity.
  - rewrite (savestate_clear_disabled w H). reflexivity.
Qed.

(** C1.  The specification wants the checksum byte, after a full save or
    a clear with a chip present, to be the sum of all other bytes of the
    record modulo 256.  The code at a console with a blank chip:
    [savestate_initialize] formats the record and its checksum, 33, is the
    sum of the other bytes; the first full save, [savestate_save(false)],
    then stores 183 where the other bytes add up to 150 (it added the 33
    in), and the clear that follows drops the crashed flag and keeps 183
    where the other bytes add up to 149. *)
Theorem C1_checksum_after_save_and_clear :
  let w1 := started_console in
  let w2 := exec (savestate_save false) w1 in
  let w3 := exec savestate_clear w2 in
  truth (global_cansave w1) = true /\
  checksum (global_gamesave w1) = sum_other_bytes (global_gamesave w1) /\
  (checksum (global_gamesave w2) = 183 /\
   sum_other_bytes (global_gamesave w2) = 150 /\
   checksum (global_gamesave w2) <> sum_other_bytes (global_gamesave w2)) /\
  (checksum (global_gamesave w3) = 183 /\
   sum_other_bytes (global_gamesave w3) = 149 /\
   checksum (global_gamesave w3) <> sum_other_bytes (global_gamesave w3)).
Proof.
  vm_compute. repeat split; discriminate.
Qed.

(** ** Without a chip *)

Lemma savestate_checkcrashed_run w :
  savestate_checkcrashed w = (truth (crashedflag (global_gamesave w)), w).
Proof. reflexivity. Qed.

(** No function of the file, and nothing the game does, changes the chip
    that is on the cartridge. *)
Lemma step_eeprom_type w o : eeprom_type (step w o) = eeprom_type w.
Proof.
  destruct o as [| |[|]| | | | |gm n tb]; cbn [step]; unfold exec;
    try reflexivity.
  - destruct (eeprom_type w) eqn:E.
    + now rewrite savestate_initialize_absent.
    + rewrite savestate_initialize_present by congruence. exact E.
    + rewrite savestate_initialize_present by congruence. exact E.
  - destruct (truth (global_cansave w)) eqn:H.
    + now rewrite savestate_save_configonly.
    + now rewrite savestate_save_disabled.
  - destruct (truth (global_cansave w)) eqn:H.
    + now rewrite savestate_save_full.
    + now rewrite savestate_save_disabled.
  - destruct (truth (global_cansave w)) eqn:H.
    + now rewrite savestate_load_enabled.
    + now rewrite savestate_load_disabled.
  - destruct (truth (global_cansave w)) eqn:H.
    + now rewrite savestate_clear_enabled.
    + now rewrite savestate_clear_disabled.
Qed.

Lemma run_eeprom_type ops : forall w, eeprom_type (run ops w) = eeprom_type w.
Proof.
  induction ops as [|o ops IH]; intros w; cbn [run fold_left]; auto.
  fold (run ops (step w o)). now rewrite IH, step_eeprom_type.
Qed.

Lemma step_switched_off w o : switched_off w -> switched_off (step w o).
Proof.
  intros (Ht & Hc & Hf).
  assert (Hd : truth (global_cansave w) = false) by now rewrite Hc.
  destruct o as [| |b| | | | |gm n tb]; cbn [step]; unfold exec.
  - rewrite savestate_initialize_absent by exact Ht. now repeat split.
  - now repeat split.
  - rewrite savestate_save_disabled by exact Hd. now repeat split.
  - rewrite savestate_load_disabled by exact Hd. now repeat split.
  - rewrite savestate_clear_disabled by exact Hd. now repeat split.
  - now repeat split.
  - now repeat split.
  - now repeat split.
Qed.

Lemma run_switched_off ops : forall w,
  switched_off w -> switched_off (run ops w).
Proof.
  induction ops as [|o ops IH]; intros w H; cbn [run fold_left]; auto.
  apply IH, step_switched_off, H.
Qed.

Lemma boot_switched_off e gm n tb : switched_off (boot EEPROM_NONE e gm n tb).
Proof. now repeat split. Qed.

Lemma savestate_initialize_false w :
  result savestate_initialize w = false -> eeprom_type w = EEPROM_NONE.
Proof.
  unfold result. destruct (eeprom_type w) eqn:E; auto;
    rewrite savestate_initialize_present by congruence; discriminate.
Qed.

(** C2.  When [savestate_initialize] found no chip, then whatever is called
    afterwards, [savestate_save] in either mode, [savestate_load] and
    [savestate_clear] leave the whole world as it is (the record in
    memory, the storage, and no call goes out), and
    [savestate_checkcrashed] answers false. *)
Theorem C2_no_chip_no_op
    (t : eeprom_type_t) (e : list Z) (gm : GameState) (n : nat)
    (tb : list Minigame) (before after : list Op) :
  result savestate_initialize (run before (boot t e gm n tb)) = false ->
  let w :=
    run after (exec savestate_initialize (run before (boot t e gm n tb))) in
  truth (global_cansave w) = false /\
  exec (savestate_save false) w = w /\
  exec (savestate_save true) w = w /\
  exec savestate_load w = w /\
  exec savestate_clear w = w /\
  result savestate_checkcrashed w = false.
Proof.
  intros Hinit w.
  assert (Hoff : switched_off w).
  { apply run_switched_off.
    change (switched_off (step (run before (boot t e gm n tb)) DoInitialize)).
    apply step_switched_off, run_switched_off.
    apply savestate_initialize_false in Hinit.
    rewrite run_eeprom_type in Hinit. cbn in Hinit. subst t.
    apply boot_switched_off. }
  destruct Hoff as (_ & Hc & Hf).
  assert (Hd : truth (global_cansave w) = false) by now rewrite Hc.
  split; [exact Hd|]. unfold exec, result.
  rewrite !savestate_save_disabled, savestate_load_disabled,
    savestate_clear_disabled, savestate_checkcrashed_run by exact Hd.
  cbn [fst snd]. now rewrite Hf.
Qed.

(** C2 at a console without a chip, where the blacklist was set before and
    after the start-up and the game went on to save, load and clear. *)
Lemma C2_no_chip_no_op_witness :
  result savestate_initialize
    (run [DoSetblacklist [true; false]] bare_console) = false /\
  let w :=
    run [DoSave false; DoSetblacklist [false; true; true]; DoLoad; DoClear;
         DoPlay sample_game 3 sample_table; DoSave true]
      (exec savestate_initialize
         (run [DoSetblacklist [true; false]] bare_console)) in
  truth (global_cansave w) = false /\
  exec (savestate_save false) w = w /\
  exec (savestate_save true) w = w /\
  exec savestate_load w = w /\
  exec savestate_clear w = w /\
  result savestate_checkcrashed w = false.
Proof.
  split; [reflexivity|].
  apply (C2_no_chip_no_op EEPROM_NONE [] sample_game 5 sample_table
           [DoSetblacklist [true; false]]
           [DoSave false; DoSetblacklist [false; true; true]; DoLoad; DoClear;
            DoPlay sample_game 3 sample_table; DoSave true]).
  reflexivity.
Defined.

(** ** The crashed flag *)

(** C3.  With a chip present ([global_cansave] set): right after the full
    save, [savestate_save(false)], [savestate_checkcrashed] answers true;
    after the [savestate_clear] that follows it answers false; and
    [savestate_load], in any world, leaves its answer as it was. *)
Theorem C3_crashed_flag_lifecycle (w w' : World) :
  truth (global_cansave w) = true ->
  result savestate_checkcrashed (exec (savestate_save false) w) = true /\
  result savestate_checkcrashed
    (exec savestate_clear (exec (savestate_save false) w)) = false /\
  result savestate_checkcrashed (exec savestate_load w')
  = result savestate_checkcrashed w'.
Proof.
  intros H. unfold result, exec. rewrite !savestate_checkcrashed_run.
  rewrite (savestate_save_full w H). cbn [fst snd].
  split; [reflexivity|]. split.
  - rewrite savestate_clear_enabled by exact H. reflexivity.
  - destruct (truth (global_cansave w')) eqn:H'.
    + now rewrite savestate_load_enabled.
    + now rewrite savestate_load_disabled.
Qed.

(** C3 at the console with a blank chip, and the load taken on the record
    a crash left. *)
Lemma C3_crashed_flag_lifecycle_witness :
  truth (global_cansave started_console) = true /\
  result savestate_checkcrashed
    (exec (savestate_save false) started_console) = true /\
  result savestate_checkcrashed
    (exec savestate_clear (exec (savestate_save false) started_console))
  = false /\
  result savestate_checkcrashed (exec savestate_load crashed_console)
  = result savestate_checkcrashed crashed_console.
Proof.
  split; [reflexivity|].
  apply (C3_crashed_flag_lifecycle started_console crashed_console).
  reflexivity.
Defined.

(** ** The blacklist *)

(** C4.  For flags of the List.length of the minigame table, and a table of at
    most 32 minigames, [savestate_getblacklist] right after
    [savestate_setblacklist] fills the caller's array with the flags that
    were set; no save or load comes in between. *)
Theorem C4_blacklist_round_trip (w : World) (flags out : list bool) :
  List.length flags = global_minigame_count w ->
  List.length out = global_minigame_count w ->
  (global_minigame_count w <= 32)%nat ->
  result (savestate_getblacklist out)
    (exec (savestate_setblacklist flags) w) = flags.
Proof.
  intros Hf Ho Hc. unfold result, exec.
  rewrite savestate_setblacklist_run, savestate_getblacklist_run.
  cbn [fst snd global_minigame_count global_gamesave with_gamesave
       blacklist set_blacklist].
  now apply unpack_pack.
Qed.

(** C4 with five minigames, three of them excluded. *)
Lemma C4_blacklist_round_trip_witness :
  (List.length [true; false; true; true; false]
   = global_minigame_count started_console /\
   List.length (repeat false 5) = global_minigame_count started_console /\
   (global_minigame_count started_console <= 32)%nat) /\
  result (savestate_getblacklist (repeat false 5))
    (exec (savestate_setblacklist [true; false; true; true; false])
       started_console)
  = [true; false; true; true; false].
Proof.
  split; [repeat split; vm_compute; lia|].
  apply (C4_blacklist_round_trip started_console
           [true; false; true; true; false] (repeat false 5));
    [reflexivity | reflexivity | vm_compute; lia].
Defined.

(** ** The config-only save *)







(** ** Start-up *)

Lemma read_bytes_prefix e :
  read_bytes (read_bytes e 0 sizeof_GameSave) 0 4 = read_bytes e 0 4.
Proof. reflexivity. Qed.

Lemma formatted_checksum : checksum formatted = sum_other_bytes formatted.
Proof. reflexivity. Qed.

(** C6.  When [savestate_initialize] finds a chip whose first four bytes
    are not "NBGJ", the record in memory comes out with the header
    "NBGJ", every other field zero, the checksum byte equal to the sum of
    all other bytes modulo 256, and [savestate_checkcrashed] answers
    false. *)
Theorem C6_initialize_formats (w : World) :
  eeprom_type w <> EEPROM_NONE ->
  read_bytes (eeprom w) 0 4 <> [chr "N"; chr "B"; chr "G"; chr "J"] ->
  let w' := exec savestate_initialize w in
  let g := global_gamesave w' in
  header g = [chr "N"; chr "B"; chr "G"; chr "J"] /\
  (blacklist g = 0 /\ crashedflag g = 0 /\ aidiff g = 0 /\
   pointstowin g = 0 /\ nextplaystyle g = 0 /\
   playerconts g = repeat 0 MAXPLAYERS /\ points g = repeat 0 MAXPLAYERS /\
   chooser g = 0 /\ curgame g = 0 /\ tailpad g = [0]) /\
  checksum g = sum_other_bytes g /\
  result savestate_checkcrashed w' = false.
Proof.
  intros Ht Hm w' g. subst g w'. unfold exec, result.
  rewrite (savestate_initialize_present w Ht), read_bytes_prefix.
  destruct (Z.eqb_spec (strncmp (read_bytes (eeprom w) 0 4) (cstring "NBGJ") 4) 0)
    as [E|E].
  - exfalso. apply Hm. now apply strncmp_magic.
  - cbn [snd global_gamesave with_gamesave]. repeat split.
Qed.

(** C6 at the console with a blank chip. *)
Lemma C6_initialize_formats_witness :
  (eeprom_type fresh_console <> EEPROM_NONE /\
   read_bytes (eeprom fresh_console) 0 4
   <> [chr "N"; chr "B"; chr "G"; chr "J"]) /\
  let g := global_gamesave (exec savestate_initialize fresh_console) in
  header g = [chr "N"; chr "B"; chr "G"; chr "J"] /\
  (blacklist g = 0 /\ crashedflag g = 0 /\ aidiff g = 0 /\
   pointstowin g = 0 /\ nextplaystyle g = 0 /\
   playerconts g = repeat 0 MAXPLAYERS /\ points g = repeat 0 MAXPLAYERS /\
   chooser g = 0 /\ curgame g = 0 /\ tailpad g = [0]) /\
  checksum g = sum_other_bytes g /\
  result savestate_checkcrashed (exec savestate_initialize fresh_console)
  = false.
Proof.
  split; [split; vm_compute; discriminate|].
  apply (C6_initialize_formats fresh_console); vm_compute; discriminate.
Defined.

(** C8.  [savestate_initialize] leaves the storage as it is, on the
    branch that formats the record as on the others: its only calls are
    the presence test and, with a chip, the read.  It answers true exactly
    when a chip is there, and [global_cansave] is set accordingly. *)
Theorem C8_initialize_never_writes (w : World) :
  let present := negb (eeprom_type_eqb (eeprom_type w) EEPROM_NONE) in
  eeprom (exec savestate_initialize w) = eeprom w /\
  calls (exec savestate_initialize w) =
    calls w ++
    (if present
     then [Call_eeprom_present; Call_eeprom_read_bytes 0 sizeof_GameSave]
     else [Call_eeprom_present]) /\
  result savestate_initialize w = present /\
  truth (global_cansave (exec savestate_initialize w)) = present.
Proof.
  unfold exec, result. destruct (eeprom_type w) eqn:E.
  - rewrite (savestate_initialize_absent w E). now repeat split.
  - rewrite savestate_initialize_present by congruence. now repeat split.
  - rewrite savestate_initialize_present by congruence. now repeat split.
Qed.

(** ** Restoring the game *)

(** C7.  With a chip present, [savestate_load] hands the record to the
    game and does nothing else: its calls are, in this order, the player
    flags, the AI difficulty, the points to win, the points of players 1
    to 4, the next play style, the chooser, and the request for the
    minigame at index [curgame] of the table.  No call goes to the
    EEPROM; storage and record stay as they are. *)
Theorem C7_load_pushes_record (w : World) :
  truth (global_cansave w) = true ->
  let g := global_gamesave w in
  let w' := exec savestate_load w in
  calls w' =
    calls w ++
    [ Call_core_set_playercount
        [ truth (aget 0 (playerconts g) 0); truth (aget 0 (playerconts g) 1);
          truth (aget 0 (playerconts g) 2); truth (aget 0 (playerconts g) 3) ];
      Call_core_set_aidifficulty (aidiff g);
      Call_results_set_points_to_win (pointstowin g);
      Call_results_set_points PLAYER_1 (aget 0 (points g) 0);
      Call_results_set_points PLAYER_2 (aget 0 (points g) 1);
      Call_results_set_points PLAYER_3 (aget 0 (points g) 2);
      Call_results_set_points PLAYER_4 (aget 0 (points g) 3);
      Call_core_set_nextround (nextplaystyle g);
      Call_core_set_curchooser (chooser g);
      Call_minigame_loadnext
        (internalname
           (aget (mkMinigame EmptyString) (global_minigame_list w)
              (Z.to_nat (curgame g)))) ] /\
  eeprom w' = eeprom w /\
  global_gamesave w' = g.
Proof.
  intros H g w'. subst w'. unfold exec.
  rewrite (savestate_load_enabled w H). now repeat split.
Qed.

(** C7 on the record with points 10, 20, 5, 0, players 1 to 3 present and
    the minigame at index 3. *)
Lemma C7_load_pushes_record_witness :
  truth (global_cansave crashed_console) = true /\
  calls (exec savestate_load crashed_console) =
    calls crashed_console ++
    [ Call_core_set_playercount [true; true; true; false];
      Call_core_set_aidifficulty 1;
      Call_results_set_points_to_win 30;
      Call_results_set_points PLAYER_1 10;
      Call_results_set_points PLAYER_2 20;
      Call_results_set_points PLAYER_3 5;
      Call_results_set_points PLAYER_4 0;
      Call_core_set_nextround 2;
      Call_core_set_curchooser 1;
      Call_minigame_loadnext "delta" ] /\
  eeprom (exec savestate_load crashed_console) = eeprom crashed_console /\
  global_gamesave (exec savestate_load crashed_console) = crashed_record.
Proof.
  split; [reflexivity|].
  apply (C7_load_pushes_record crashed_console). reflexivity.
Defined.

(** ** The blacklist and the rest of the record *)

Lemma testbit_bits_value flags : forall k,
  Z.testbit (bits_value flags) (Z.of_nat k) = nth k flags false.
Proof.
  induction flags as [|b flags IH]; intros k; cbn [bits_value fold_right].
  - rewrite Z.testbit_0_l. now destruct k.
  - fold (bits_value flags). change (int_of_bool b) with (Z.b2z b).
    destruct k as [|k].
    + apply Z.testbit_0_r.
    + rewrite Nat2Z.inj_succ, Z.testbit_succ_r by lia. apply IH.
Qed.

Lemma pack_bits_value count flags :
  List.length flags = count -> (count <= 32)%nat ->
  pack count flags = bits_value flags.
Proof.
  intros Hl Hc. apply Z.bits_inj'. intros n Hn.
  rewrite <- (Z2Nat.id n Hn), testbit_pack, testbit_bits_value.
  destruct (Nat.ltb_spec (Z.to_nat n) count); cbn [andb].
  - destruct (Nat.ltb_spec (Z.to_nat n) 32); [reflexivity|lia].
  - symmetry. apply nth_overflow. lia.
Qed.

(** C9.  [savestate_setblacklist] does not look at [global_cansave]: with
    no chip, where [savestate_save], [savestate_load] and
    [savestate_clear] do nothing, it still stores the flags in the
    blacklist field of the record, bit [i] for flag [i], and a
    [savestate_getblacklist] after it gives the flags back.  The flags
    have the List.length of the minigame table, of at most 32 entries. *)
Theorem C9_setblacklist_not_guarded (w : World) (flags out : list bool) :
  truth (global_cansave w) = false ->
  List.length flags = global_minigame_count w ->
  List.length out = global_minigame_count w ->
  (global_minigame_count w <= 32)%nat ->
  let w' := exec (savestate_setblacklist flags) w in
  blacklist (global_gamesave w') = bits_value flags /\
  result (savestate_getblacklist out) w' = flags /\
  exec (savestate_save false) w = w /\
  exec (savestate_save true) w = w /\
  exec savestate_load w = w /\
  exec savestate_clear w = w.
Proof.
  intros Hd Hf Ho Hc w'. subst w'. unfold result, exec.
  rewrite savestate_setblacklist_run, savestate_getblacklist_run.
  rewrite !savestate_save_disabled, savestate_load_disabled,
    savestate_clear_disabled by exact Hd.
  cbn [fst snd global_minigame_count global_gamesave with_gamesave
       blacklist set_blacklist].
  split; [now apply pack_bits_value|].
  split; [now apply unpack_pack|].
  now repeat split.
Qed.

(** C9 at the console without a chip: minigames 0, 2 and 3 excluded, the
    field holds 13. *)
Lemma C9_setblacklist_not_guarded_witness :
  (truth (global_cansave bare_console) = false /\
   List.length [true; false; true; true; false]
   = global_minigame_count bare_console /\
   List.length (repeat false 5) = global_minigame_count bare_console /\
   (global_minigame_count bare_console <= 32)%nat) /\
  blacklist
    (global_gamesave
       (exec (savestate_setblacklist [true; false; true; true; false])
          bare_console)) = 13 /\
  result (savestate_getblacklist (repeat false 5))
    (exec (savestate_setblacklist [true; false; true; true; false])
       bare_console) = [true; false; true; true; false] /\
  exec (savestate_save false) bare_console = bare_console /\
  exec (savestate_save true) bare_console = bare_console /\
  exec savestate_load bare_console = bare_console /\
  exec savestate_clear bare_console = bare_console.
Proof.
  split; [repeat split; vm_compute; lia|].
  apply (C9_setblacklist_not_guarded bare_console
           [true; false; true; true; false] (repeat false 5));
    [reflexivity | reflexivity | reflexivity | vm_compute; lia].
Defined.

(** C10.  For flags with an entry for each of the at most 32 registered
    minigames, [savestate_setblacklist] replaces the whole blacklist field
    by the bits it packs: bit [k] is flag [k] for [k] below the number of
    minigames, every other bit is 0, so the field does not depend on what
    it held before.  Nothing else changes: not another field of the
    record, the checksum byte included, not [global_cansave], not the
    storage, and no call goes out. *)
Theorem C10_setblacklist_overwrites
    (w : World) (flags : list bool) (previous : Z) (k : nat) :
  (global_minigame_count w <= 32)%nat ->
  (global_minigame_count w <= List.length flags)%nat ->
  let g := global_gamesave w in
  let w' := exec (savestate_setblacklist flags) w in
  let g' := global_gamesave w' in
  Z.testbit (blacklist g') (Z.of_nat k)
  = (k <? global_minigame_count w)%nat && nth k flags false /\
  0 <= blacklist g' < 2 ^ 32 /\
  blacklist
    (global_gamesave
       (exec (savestate_setblacklist flags)
          (with_gamesave (set_blacklist previous g) w)))
  = blacklist g' /\
  w' = with_gamesave (set_blacklist (blacklist g') g) w /\
  (header g' = header g /\ crashedflag g' = crashedflag g /\
   aidiff g' = aidiff g /\ pointstowin g' = pointstowin g /\
   nextplaystyle g' = nextplaystyle g /\ playerconts g' = playerconts g /\
   points g' = points g /\ chooser g' = chooser g /\
   curgame g' = curgame g /\ checksum g' = checksum g /\
   tailpad g' = tailpad g).
Proof.
  intros Hc Hl g w' g'. subst g' w' g. unfold exec.
  rewrite !savestate_setblacklist_run.
  cbn [snd global_minigame_count global_gamesave with_gamesave
       blacklist set_blacklist].
  split.
  - rewrite testbit_pack.
    destruct (Nat.ltb_spec k (global_minigame_count w)); [|reflexivity].
    destruct (Nat.ltb_spec k 32); [reflexivity|lia].
  - split; [apply pack_range|]. now repeat split.
Qed.

(** C10 at the console with a blank chip and five minigames: over a field
    of 32 ones, the flags of minigames 0, 2 and 3 leave bit 7 at 0. *)
Lemma C10_setblacklist_overwrites_witness :
  ((global_minigame_count started_console <= 32)%nat /\
   (global_minigame_count started_console
    <= List.length [true; false; true; true; false])%nat) /\
  let g := global_gamesave started_console in
  let w' :=
    exec (savestate_setblacklist [true; false; true; true; false])
      started_console in
  let g' := global_gamesave w' in
  Z.testbit (blacklist g') (Z.of_nat 7)
  = (7 <? global_minigame_count started_console)%nat
    && nth 7 [true; false; true; true; false] false /\
  0 <= blacklist g' < 2 ^ 32 /\
  blacklist
    (global_gamesave
       (exec (savestate_setblacklist [true; false; true; true; false])
          (with_gamesave (set_blacklist 4294967295 g) started_console)))
  = blacklist g' /\
  w' = with_gamesave (set_blacklist (blacklist g') g) started_console /\
  (header g' = header g /\ crashedflag g' = crashedflag g /\
   aidiff g' = aidiff g /\ pointstowin g' = pointstowin g /\
   nextplaystyle g' = nextplaystyle g /\ playerconts g' = playerconts g /\
   points g' = points g /\ chooser g' = chooser g /\
   curgame g' = curgame g /\ checksum g' = checksum g /\
   tailpad g' = tailpad g).
Proof.
  split; [split; vm_compute; lia|].
  exact (C10_setblacklist_overwrites started_console
           [true; false; true; true; false] 4294967295 7
           (ltac:(vm_compute; lia)) (ltac:(vm_compute; lia))).
Defined.

(** ** Records and their bytes *)

Lemma is_byte_spec z : is_byte z = true <-> 0 <= z < 256.
Proof. unfold is_byte. lia. Qed.

Lemma is_byte_u8 z : is_byte (u8 z) = true.
Proof.
  apply is_byte_spec. unfold u8. apply Z.mod_pos_bound. lia.
Qed.

Lemma is_byte_land_255 z : is_byte (Z.land z 255) = true.
Proof.
  apply is_byte_spec. change 255 with (Z.ones 8).
  rewrite Z.land_ones by lia. apply Z.mod_pos_bound. lia.
Qed.

Lemma is_byte_int_of_bool b : is_byte (int_of_bool b) = true.
Proof. now destruct b. Qed.

Lemma is_byte_nth l k : forallb is_byte l = true -> is_byte (nth k l 0) = true.
Proof.
  intros H. destruct (Nat.lt_ge_cases k (List.length l)) as [Hk|Hk].
  - rewrite forallb_forall in H. apply H, nth_In, Hk.
  - now rewrite nth_overflow.
Qed.

Lemma forallb_read_bytes l start len :
  forallb is_byte l = true -> forallb is_byte (read_bytes l start len) = true.
Proof.
  intros H. unfold read_bytes, aget. apply forallb_forall. intros x Hx.
  apply in_map_iff in Hx. destruct Hx as (k & <- & _). now apply is_byte_nth.
Qed.

Lemma length_read_bytes l start len :
  List.length (read_bytes l start len) = len.
Proof. unfold read_bytes. now rewrite length_map, length_seq. Qed.

Lemma forallb_aset l i v :
  forallb is_byte l = true -> is_byte v = true ->
  forallb is_byte (aset l i v) = true.
Proof.
  revert i. induction l as [|x l IH]; intros [|i] Hl Hv; cbn [aset forallb] in *;
    auto; apply andb_true_iff in Hl; destruct Hl as [Hx Hl];
    apply andb_true_iff; auto.
Qed.

Lemma forallb_write_bytes src : forall data start,
  forallb is_byte data = true -> forallb is_byte src = true ->
  forallb is_byte (write_bytes data start src) = true.
Proof.
  induction src as [|b src IH]; intros data start Hd Hs; cbn [write_bytes];
    auto.
  cbn [forallb] in Hs. apply andb_true_iff in Hs. destruct Hs as [Hb Hs].
  apply IH; auto. now apply forallb_aset.
Qed.

Lemma testbit_byte_at x k n :
  0 <= k -> 0 <= n ->
  Z.testbit (Z.shiftl (Z.land (Z.shiftr x k) 255) k) n
  = Z.testbit x n && (k <=? n) && (n <? k + 8).
Proof.
  intros Hk Hn. rewrite Z.shiftl_spec by lia.
  destruct (Z.leb_spec k n).
  - rewrite Z.land_spec, Z.shiftr_spec by lia.
    replace (n - k + k) with n by lia.
    change 255 with (Z.ones 8). rewrite Z.testbit_ones_nonneg by lia.
    rewrite andb_true_r. f_equal.
    destruct (Z.ltb_spec (n - k) 8), (Z.ltb_spec n (k + 8)); auto; lia.
  - rewrite Z.testbit_neg_r by lia. now rewrite andb_false_r.
Qed.

(** The four bytes of a 32-bit value put together again. *)
Lemma u32_of_bytes_of_u32 x :
  0 <= x < 2 ^ 32 -> u32_of_bytes (bytes_of_u32 x) = x.
Proof.
  intros Hx. unfold u32_of_bytes, bytes_of_u32, aget. cbn [nth].
  apply Z.bits_inj'. intros n Hn.
  rewrite <- (Z.shiftl_0_r (Z.land x 255)).
  rewrite <- (Z.shiftr_0_r x) at 4.
  rewrite !Z.lor_spec, !testbit_byte_at by lia.
  assert (Hhigh : 32 <= n -> Z.testbit x n = false).
  { intros H. rewrite <- (Z.mod_small x (2 ^ 32)) by lia.
    apply Z.mod_pow2_bits_high. lia. }
  destruct (Z.lt_ge_cases n 32) as [Hlt|Hge].
  - destruct (Z.testbit x n); cbn [andb orb]; [|reflexivity].
    destruct (Z.leb_spec 24 n), (Z.ltb_spec n (24 + 8)),
      (Z.leb_spec 16 n), (Z.ltb_spec n (16 + 8)),
      (Z.leb_spec 8 n), (Z.ltb_spec n (8 + 8)),
      (Z.leb_spec 0 n), (Z.ltb_spec n (0 + 8)); cbn [andb orb]; lia.
  - rewrite (Hhigh Hge). reflexivity.
Qed.

Lemma u32_of_bytes_range b :
  forallb is_byte b = true -> 0 <= u32_of_bytes b < 2 ^ 32.
Proof.
  intros H. unfold u32_of_bytes, aget.
  pose proof (is_byte_nth b 0 H) as H0. pose proof (is_byte_nth b 1 H) as H1.
  pose proof (is_byte_nth b 2 H) as H2. pose proof (is_byte_nth b 3 H) as H3.
  apply is_byte_spec in H0, H1, H2, H3.
  rewrite !Z.shiftl_mul_pow2 by lia.
  repeat apply lor_u32_range; lia.
Qed.

Ltac split_andb H :=
  repeat match type of H with
         | (_ && _) = true =>
             let H' := fresh H in
             apply andb_true_iff in H; destruct H as [H H']
         end.

Ltac prove_andb :=
  repeat match goal with
         | |- (_ && _) = true => apply andb_true_iff; split
         end.

Lemma fits_of_bytes b :
  forallb is_byte b = true -> fits (GameSave_of_bytes b) = true.
Proof.
  intros H. unfold fits, GameSave_of_bytes, aget.
  cbn [header blacklist crashedflag aidiff pointstowin nextplaystyle
       playerconts points chooser curgame checksum tailpad].
  rewrite !length_read_bytes.
  pose proof (u32_of_bytes_range (read_bytes b offsetof_blacklist 4)
                (forallb_read_bytes b _ _ H)) as Hr.
  prove_andb; try reflexivity; try (now apply forallb_read_bytes);
    try (now apply is_byte_nth); lia.
Qed.

Lemma fits_bytes g :
  fits g = true -> forallb is_byte (GameSave_bytes g) = true.
Proof.
  intros H. unfold fits in H. split_andb H.
  unfold GameSave_bytes. rewrite !forallb_app.
  prove_andb; try (now apply forallb_read_bytes).
  - unfold bytes_of_u32. cbn [forallb]. now rewrite !is_byte_land_255.
  - cbn [forallb]. prove_andb; auto.
  - cbn [forallb]. prove_andb; auto.
Qed.

(** Reading a record back from its own bytes. *)
Lemma GameSave_of_bytes_bytes g :
  fits g = true -> GameSave_of_bytes (GameSave_bytes g) = g.
Proof.
  intros H. unfold fits in H. split_andb H.
  destruct g as [h bl cf ad pw np pc pt ch cg ck tp].
  cbn [header blacklist crashedflag aidiff pointstowin nextplaystyle
       playerconts points chooser curgame checksum tailpad] in *.
  destruct h as [|h0 [|h1 [|h2 [|h3 [|]]]]]; try discriminate.
  destruct pc as [|pc0 [|pc1 [|pc2 [|pc3 [|]]]]]; try discriminate.
  destruct pt as [|pt0 [|pt1 [|pt2 [|pt3 [|]]]]]; try discriminate.
  destruct tp as [|tp0 [|]]; try discriminate.
  cbv [GameSave_of_bytes GameSave_bytes read_bytes bytes_of_u32
       map seq aget app sizeof_GameSave MAXPLAYERS
       offsetof_header offsetof_blacklist offsetof_crashedflag
       offsetof_aidiff offsetof_pointstowin offsetof_nextplaystyle
       offsetof_playerconts offsetof_points offsetof_chooser
       offsetof_curgame offsetof_checksum Nat.add Nat.sub Nat.mul
       header blacklist crashedflag aidiff pointstowin nextplaystyle
       playerconts points chooser curgame checksum tailpad].
  cbn [nth]. f_equal.
  apply (u32_of_bytes_of_u32 bl). lia.
Qed.

Lemma fits_captured gm g :
  fits g = true ->
  fits (set_checksum (calc_checksum (captured gm g)) (captured gm g)) = true.
Proof.
  intros H. unfold fits in *. split_andb H.
  cbn [set_checksum captured header blacklist crashedflag aidiff pointstowin
       nextplaystyle playerconts points chooser curgame checksum tailpad
       for_ MAXPLAYERS].
  rewrite !length_aset, calc_checksum_others.
  prove_andb; auto using is_byte_u8;
    repeat (apply forallb_aset; auto using is_byte_u8, is_byte_int_of_bool).
Qed.

Lemma fits_set_crashedflag_0 g :
  fits g = true -> fits (set_crashedflag 0 g) = true.
Proof.
  intros H. unfold fits in *. split_andb H.
  cbn [set_crashedflag header blacklist crashedflag aidiff pointstowin
       nextplaystyle playerconts points chooser curgame checksum tailpad].
  prove_andb; auto.
Qed.

Lemma fits_set_blacklist count lst g :
  fits g = true -> fits (set_blacklist (pack count lst) g) = true.
Proof.
  intros H. unfold fits in *. split_andb H.
  cbn [set_blacklist header blacklist crashedflag aidiff pointstowin
       nextplaystyle playerconts points chooser curgame checksum tailpad].
  pose proof (pack_range count lst).
  prove_andb; auto; lia.
Qed.

Lemma strncmp_header e :
  strncmp (read_bytes e 0 4) (cstring "NBGJ") 4 = 0 <->
  read_bytes e 0 4 = [chr "N"; chr "B"; chr "G"; chr "J"].
Proof. apply strncmp_magic. Qed.

Lemma truth_1 : truth 1 = true.
Proof. reflexivity. Qed.

(** ** What every reachable world satisfies *)

Lemma boot_sound t e gm n tb :
  forallb is_byte e = true -> sound (boot t e gm n tb).
Proof.
  intros H. repeat split; auto; cbn in *; discriminate.
Qed.

Ltac world_fields :=
  cbn [snd global_gamesave eeprom global_cansave eeprom_type
       with_eeprom with_gamesave with_calls with_cansave].

Lemma sound_initialize_present w :
  sound w -> eeprom_type w <> EEPROM_NONE ->
  sound (snd (savestate_initialize w)).
Proof.
  intros (Hf & He & Hc & Hh) E. unfold sound.
  rewrite (savestate_initialize_present w E), read_bytes_prefix.
  world_fields.
  split; [|split; [exact He|split; [now right|intros _; split; [exact E|]]]].
  - destruct (strncmp _ _ _ =? 0); [|reflexivity].
    apply fits_of_bytes. now apply forallb_read_bytes.
  - destruct (Z.eqb_spec (strncmp (read_bytes (eeprom w) 0 4)
                            (cstring "NBGJ") 4) 0) as [Hm|Hm];
      [|reflexivity].
    now apply strncmp_header.
Qed.

Lemma sound_write w g :
  sound w -> fits g = true ->
  (truth (global_cansave w) = true ->
   header g = [chr "N"; chr "B"; chr "G"; chr "J"]) ->
  forall cl,
  sound (with_eeprom
           (write_bytes (eeprom w) 0 (firstn sizeof_GameSave (GameSave_bytes g)))
           (with_calls cl (with_gamesave g w))).
Proof.
  intros (Hf & He & Hc & Hh) Hg Hhd cl. unfold sound. world_fields.
  split; [exact Hg|]. split.
  - apply forallb_write_bytes; [exact He|].
    change (firstn sizeof_GameSave (GameSave_bytes g))
      with (GameSave_bytes g).
    now apply fits_bytes.
  - split; [exact Hc|]. intros H. split; [now apply Hh|now apply Hhd].
Qed.

Lemma step_sound w o : sound w -> sound (step w o).
Proof.
  intros Hs. pose proof Hs as (Hf & He & Hc & Hh).
  destruct o as [| |[|]| | | | |gm n tb]; cbn [step]; unfold exec.
  - (* savestate_initialize *)
    destruct (eeprom_type w) eqn:E.
    + rewrite (savestate_initialize_absent w E). unfold sound. world_fields.
      split; [exact Hf|]. split; [exact He|]. split; [now left|].
      intros H. discriminate H.
    + apply sound_initialize_present; [exact Hs|congruence].
    + apply sound_initialize_present; [exact Hs|congruence].
  - exact Hs.
  - (* config-only save *)
    destruct (truth (global_cansave w)) eqn:H.
    + rewrite (savestate_save_configonly w H). cbn [snd].
      apply (sound_write w (global_gamesave w) Hs Hf).
      intros _. now apply Hh.
    + rewrite (savestate_save_disabled true w H). exact Hs.
  - (* full save *)
    destruct (truth (global_cansave w)) eqn:H.
    + rewrite (savestate_save_full w H). cbn [snd].
      apply (sound_write w _ Hs (fits_captured (game w) _ Hf)).
      intros _. now apply Hh.
    + rewrite (savestate_save_disabled false w H). exact Hs.
  - destruct (truth (global_cansave w)) eqn:H.
    + rewrite (savestate_load_enabled w H). exact Hs.
    + rewrite (savestate_load_disabled w H). exact Hs.
  - destruct (truth (global_cansave w)) eqn:H.
    + rewrite (savestate_clear_enabled w H). cbn [snd].
      apply (sound_write w _ Hs (fits_set_crashedflag_0 _ Hf)).
      intros _. now apply Hh.
    + rewrite (savestate_clear_disabled w H). exact Hs.
  - rewrite savestate_setblacklist_run. unfold sound. world_fields.
    split; [now apply fits_set_blacklist|]. split; [exact He|].
    split; [exact Hc|exact Hh].
  - rewrite savestate_getblacklist_run. exact Hs.
  - exact Hs.
Qed.

Lemma run_sound ops : forall w, sound w -> sound (run ops w).
Proof.
  induction ops as [|o ops IH]; intros w H; cbn [run fold_left]; auto.
  apply IH, step_sound, H.
Qed.

(** ** Storage *)

Lemma skipn_aset {A} (l : list A) : forall i n v,
  (i < n)%nat -> skipn n (aset l i v) = skipn n l.
Proof.
  induction l as [|x l IH]; intros [|i] [|n] v H; cbn [aset skipn];
    try reflexivity; try lia.
  apply IH. lia.
Qed.

Lemma skipn_write_bytes src : forall data start n,
  (start + List.length src <= n)%nat ->
  skipn n (write_bytes data start src) = skipn n data.
Proof.
  induction src as [|b src IH]; intros data start n H;
    cbn [write_bytes List.length] in *; [reflexivity|].
  rewrite IH by lia. apply skipn_aset. lia.
Qed.

Lemma read_write_bytes data src :
  (List.length src <= List.length data)%nat ->
  read_bytes (write_bytes data 0 src) 0 (List.length src) = src.
Proof.
  intros H. apply (nth_ext _ _ 0 0).
  - apply length_read_bytes.
  - intros k Hk. rewrite length_read_bytes in Hk.
    rewrite nth_read_bytes, nth_write_bytes by exact Hk.
    destruct (Nat.leb_spec 0 (0 + k)),
      (Nat.ltb_spec (0 + k) (0 + List.length src)),
      (Nat.ltb_spec (0 + k) (List.length data)); cbn [andb]; try lia.
    f_equal. lia.
Qed.

Lemma read_back_record e g :
  (sizeof_GameSave <= List.length e)%nat ->
  read_bytes
    (write_bytes e 0 (firstn sizeof_GameSave (GameSave_bytes g)))
    0 sizeof_GameSave
  = GameSave_bytes g.
Proof.
  intros H.
  change (firstn sizeof_GameSave (GameSave_bytes g)) with (GameSave_bytes g).
  pose proof (read_write_bytes e (GameSave_bytes g)) as Hr.
  rewrite length_GameSave_bytes in Hr. now apply Hr.
Qed.

Lemma step_eeprom_tail w o :
  List.length (eeprom (step w o)) = List.length (eeprom w) /\
  skipn sizeof_GameSave (eeprom (step w o)) = skipn sizeof_GameSave (eeprom w).
Proof.
  assert (Hw : forall g,
    List.length (write_bytes (eeprom w) 0
                   (firstn sizeof_GameSave (GameSave_bytes g)))
    = List.length (eeprom w) /\
    skipn sizeof_GameSave
      (write_bytes (eeprom w) 0 (firstn sizeof_GameSave (GameSave_bytes g)))
    = skipn sizeof_GameSave (eeprom w)).
  { intros g. split; [apply length_write_bytes|].
    apply skipn_write_bytes.
    change (firstn sizeof_GameSave (GameSave_bytes g))
      with (GameSave_bytes g).
    rewrite length_GameSave_bytes. lia. }
  destruct o as [| |[|]| | | | |gm n tb]; cbn [step]; unfold exec;
    try (split; reflexivity).
  - destruct (eeprom_type w) eqn:E.
    + rewrite (savestate_initialize_absent w E). split; reflexivity.
    + rewrite savestate_initialize_present by congruence. split; reflexivity.
    + rewrite savestate_initialize_present by congruence. split; reflexivity.
  - destruct (truth (global_cansave w)) eqn:H.
    + rewrite (savestate_save_configonly w H). apply Hw.
    + rewrite (savestate_save_disabled true w H). split; reflexivity.
  - destruct (truth (global_cansave w)) eqn:H.
    + rewrite (savestate_save_full w H). apply Hw.
    + rewrite (savestate_save_disabled false w H). split; reflexivity.
  - destruct (truth (global_cansave w)) eqn:H.
    + rewrite (savestate_load_enabled w H). split; reflexivity.
    + rewrite (savestate_load_disabled w H). split; reflexivity.
  - destruct (truth (global_cansave w)) eqn:H.
    + rewrite (savestate_clear_enabled w H). apply Hw.
    + rewrite (savestate_clear_disabled w H). split; reflexivity.
Qed.

(** X1.  Whatever is called, in whatever order, the chip keeps its size
    and every byte from offset [sizeof(GameSave)] on: the file writes
    into the first 24 bytes and nowhere else. *)
Theorem X1_writes_stay_in_record (ops : list Op) (w : World) :
  List.length (eeprom (run ops w)) = List.length (eeprom w) /\
  skipn sizeof_GameSave (eeprom (run ops w))
  = skipn sizeof_GameSave (eeprom w).
Proof.
  revert w. induction ops as [|o ops IH]; intros w; cbn [run fold_left].
  - split; reflexivity.
  - fold (run ops (step w o)).
    destruct (IH (step w o)) as [Hl Hs], (step_eeprom_tail w o) as [Hl' Hs'].
    split; congruence.
Qed.

Lemma write_mirror w g cl :
  (sizeof_GameSave <= List.length (eeprom w))%nat ->
  let w' :=
    with_eeprom
      (write_bytes (eeprom w) 0 (firstn sizeof_GameSave (GameSave_bytes g)))
      (with_calls cl (with_gamesave g w)) in
  read_bytes (eeprom w') 0 sizeof_GameSave = GameSave_bytes (global_gamesave w').
Proof.
  intros H. world_fields. now apply read_back_record.
Qed.

(** X2.  With a chip present and room for the record on it, after
    [savestate_save], in either mode, and after [savestate_clear] the
    first [sizeof(GameSave)] bytes of the chip are the bytes of the record
    in memory. *)
Theorem X2_storage_mirrors_memory (w : World) (configonly : bool) :
  truth (global_cansave w) = true ->
  (sizeof_GameSave <= List.length (eeprom w))%nat ->
  read_bytes (eeprom (exec (savestate_save configonly) w)) 0 sizeof_GameSave
  = GameSave_bytes (global_gamesave (exec (savestate_save configonly) w)) /\
  read_bytes (eeprom (exec savestate_clear w)) 0 sizeof_GameSave
  = GameSave_bytes (global_gamesave (exec savestate_clear w)).
Proof.
  intros H Hl. unfold exec. split.
  - destruct configonly.
    + rewrite (savestate_save_configonly w H). cbn [snd].
      pose proof (write_mirror w (global_gamesave w)) as Hm.
      apply Hm. exact Hl.
    + rewrite (savestate_save_full w H). cbn [snd].
      now apply write_mirror.
  - rewrite (savestate_clear_enabled w H). cbn [snd].
    now apply write_mirror.
Qed.

(** X2 at the console with a blank chip, for the full save. *)
Lemma X2_storage_mirrors_memory_witness :
  (truth (global_cansave started_console) = true /\
   (sizeof_GameSave <= List.length (eeprom started_console))%nat) /\
  read_bytes (eeprom (exec (savestate_save false) started_console))
    0 sizeof_GameSave
  = GameSave_bytes
      (global_gamesave (exec (savestate_save false) started_console)) /\
  read_bytes (eeprom (exec savestate_clear started_console)) 0 sizeof_GameSave
  = GameSave_bytes (global_gamesave (exec savestate_clear started_console)).
Proof.
  split; [split; [reflexivity|vm_compute; lia]|].
  apply (X2_storage_mirrors_memory started_console false);
    [reflexivity|vm_compute; lia].
Defined.

(** ** Start-up on a formatted chip *)

Lemma initialize_reads_back w g :
  eeprom_type w <> EEPROM_NONE ->
  read_bytes (eeprom w) 0 sizeof_GameSave = GameSave_bytes g ->
  fits g = true ->
  header g = [chr "N"; chr "B"; chr "G"; chr "J"] ->
  savestate_initialize w =
  (true,
   with_gamesave g
     (with_calls
        (calls w ++ [Call_eeprom_present;
                     Call_eeprom_read_bytes 0 sizeof_GameSave])
        (with_cansave 1 w))).
Proof.
  intros Ht Hb Hf Hh. rewrite (savestate_initialize_present w Ht), Hb.
  change (read_bytes (GameSave_bytes g) 0 4)
    with (header (GameSave_of_bytes (GameSave_bytes g))).
  rewrite (GameSave_of_bytes_bytes g Hf), Hh. reflexivity.
Qed.

(** X3.  On a chip whose first four bytes are "NBGJ",
    [savestate_initialize] takes the stored bytes as the record, as they
    are: the checksum byte is copied and never compared with anything, and
    [savestate_checkcrashed] then answers by the stored crashed byte
    alone. *)
Theorem X3_initialize_trusts_header (w : World) :
  eeprom_type w <> EEPROM_NONE ->
  read_bytes (eeprom w) 0 4 = [chr "N"; chr "B"; chr "G"; chr "J"] ->
  let w' := exec savestate_initialize w in
  global_gamesave w'
  = GameSave_of_bytes (read_bytes (eeprom w) 0 sizeof_GameSave) /\
  checksum (global_gamesave w') = aget 0 (eeprom w) offsetof_checksum /\
  result savestate_checkcrashed w'
  = truth (aget 0 (eeprom w) offsetof_crashedflag).
Proof.
  intros Ht Hm w'. subst w'. unfold exec, result.
  rewrite (savestate_initialize_present w Ht), read_bytes_prefix.
  apply strncmp_header in Hm. rewrite Hm.
  change (0 =? 0) with true. world_fields.
  rewrite savestate_checkcrashed_run. now repeat split.
Qed.

(** X3 on a chip with the header in place, the crashed byte set and a
    checksum byte of 0 where the other bytes add up to 155: the record is
    taken and the crash reported. *)
Lemma X3_initialize_trusts_header_witness :
  (eeprom_type (boot EEPROM_4K stale_eeprom sample_game 5 sample_table)
   <> EEPROM_NONE /\
   read_bytes stale_eeprom 0 4 = [chr "N"; chr "B"; chr "G"; chr "J"]) /\
  let w' :=
    exec savestate_initialize
      (boot EEPROM_4K stale_eeprom sample_game 5 sample_table) in
  global_gamesave w'
  = GameSave_of_bytes (read_bytes stale_eeprom 0 sizeof_GameSave) /\
  checksum (global_gamesave w') = 0 /\
  result savestate_checkcrashed w' = true.
Proof.
  split; [split; [discriminate|reflexivity]|].
  apply (X3_initialize_trusts_header
           (boot EEPROM_4K stale_eeprom sample_game 5 sample_table));
    [discriminate|reflexivity].
Defined.

(** ** Reachable worlds *)

(** X4.  From the start of the console, on a chip that holds bytes,
    whatever is called: every member of the record in memory fits its C
    type (and the arrays keep their [MAXPLAYERS] entries), the chip still
    holds bytes, [global_cansave] is 0 or 1, and it is 1 only with a chip
    present and the header "NBGJ" in the record. *)
Theorem X4_reachable_sound
    (t : eeprom_type_t) (e : list Z) (gm : GameState) (n : nat)
    (tb : list Minigame) (ops : list Op) :
  forallb is_byte e = true ->
  sound (run ops (boot t e gm n tb)).
Proof.
  intros H. apply run_sound, boot_sound, H.
Qed.

(** X4 for a console with a blank chip that starts, saves, sets a
    blacklist, clears and starts again. *)
Lemma X4_reachable_sound_witness :
  forallb is_byte blank_eeprom = true /\
  sound
    (run [DoInitialize; DoSave false; DoSetblacklist [true; false; true];
          DoSave true; DoClear; DoInitialize]
       (boot EEPROM_4K blank_eeprom sample_game 5 sample_table)).
Proof.
  split; [reflexivity|].
  apply (X4_reachable_sound EEPROM_4K blank_eeprom sample_game 5 sample_table).
  reflexivity.
Defined.

(** ** Across a crash *)

Lemma truth_int_of_bool b : truth (int_of_bool b) = b.
Proof. now destruct b. Qed.

Lemma for_aset_all {A} (f : nat -> A) (l : list A) :
  List.length l = MAXPLAYERS ->
  for_ MAXPLAYERS 0 (fun i a => aset a i (f i)) l
  = [f 0%nat; f 1%nat; f 2%nat; f 3%nat].
Proof.
  intros H.
  destruct l as [|x0 [|x1 [|x2 [|x3 [|]]]]]; try discriminate H.
  reflexivity.
Qed.

Lemma fits_lengths g :
  fits g = true ->
  List.length (playerconts g) = MAXPLAYERS /\
  List.length (points g) = MAXPLAYERS.
Proof.
  intros H. unfold fits in H. split_andb H.
  split; now apply Nat.eqb_eq.
Qed.

(** What [savestate_load] is handed by a record a full save filled. *)
Lemma load_calls_captured gm tb g c :
  fits g = true ->
  load_calls tb (set_checksum c (captured gm g)) = restore_calls gm tb.
Proof.
  intros H. destruct (fits_lengths g H) as [Hc Hp].
  unfold load_calls, restore_calls, aget.
  cbn [set_checksum captured playerconts points aidiff pointstowin
       nextplaystyle chooser curgame].
  rewrite (for_aset_all _ _ Hc), (for_aset_all _ _ Hp).
  cbn [nth]. now rewrite !truth_int_of_bool.
Qed.

(** X5.  A crash after a full save is recovered.  From any world the
    program can be in with a chip present (and room for the record on
    it): after [savestate_save(false)], on the console started anew with
    the same chip, [savestate_initialize] answers true, the record in
    memory is the record that was saved, [savestate_checkcrashed] answers
    true, and [savestate_load] hands the game what the save had captured
    from it, each value as the byte it was stored in. *)
Theorem X5_crash_recovery
    (t : eeprom_type_t) (e : list Z) (gm : GameState) (n : nat)
    (tb : list Minigame) (ops : list Op)
    (gm' : GameState) (n' : nat) (tb' : list Minigame) :
  forallb is_byte e = true ->
  let w := run ops (boot t e gm n tb) in
  truth (global_cansave w) = true ->
  (sizeof_GameSave <= List.length (eeprom w))%nat ->
  let saved := exec (savestate_save false) w in
  let w' := exec savestate_initialize (reboot saved gm' n' tb') in
  result savestate_initialize (reboot saved gm' n' tb') = true /\
  global_gamesave w' = global_gamesave saved /\
  result savestate_checkcrashed w' = true /\
  calls (exec savestate_load w') = calls w' ++ restore_calls (game w) tb'.
Proof.
  intros He w Hc Hl saved w'.
  assert (Hs : sound w) by (apply run_sound, boot_sound, He).
  destruct Hs as (Hf & _ & _ & Hh). destruct (Hh Hc) as [Ht Hm].
  pose proof (fits_captured (game w) _ Hf) as Hf'.
  subst w' saved. unfold exec, result, reboot.
  rewrite (savestate_save_full w Hc). cbn [snd]. world_fields.
  set (g' := set_checksum _ (captured (game w) (global_gamesave w))) in *.
  rewrite (initialize_reads_back _ g');
    [|exact Ht|now apply read_back_record|exact Hf'|exact Hm].
  cbn [fst snd]. rewrite savestate_checkcrashed_run.
  rewrite savestate_load_enabled by reflexivity.
  cbn [fst snd]. world_fields. cbn [global_minigame_list boot calls with_calls
    with_gamesave with_cansave].
  subst g'. rewrite (load_calls_captured _ _ _ _ Hf).
  now repeat split.
Qed.

(** X5 at the console with a blank chip: the game of the sample is saved
    and, after the crash, handed back to a console that starts from a
    fresh game. *)
Lemma X5_crash_recovery_witness :
  (forallb is_byte blank_eeprom = true /\
   truth (global_cansave (run [DoInitialize] fresh_console)) = true /\
   (sizeof_GameSave
    <= List.length (eeprom (run [DoInitialize] fresh_console)))%nat) /\
  let saved :=
    exec (savestate_save false) (run [DoInitialize] fresh_console) in
  let w' :=
    exec savestate_initialize
      (reboot saved (mkGameState [] 0 0 (fun _ => 0) 0 0 0) 5 sample_table) in
  result savestate_initialize
    (reboot saved (mkGameState [] 0 0 (fun _ => 0) 0 0 0) 5 sample_table)
  = true /\
  global_gamesave w' = global_gamesave saved /\
  result savestate_checkcrashed w' = true /\
  calls (exec savestate_load w') =
    calls w' ++
    restore_calls (game (run [DoInitialize] fresh_console)) sample_table.
Proof.
  split; [split; [reflexivity|split; [reflexivity|vm_compute; lia]]|].
  exact (X5_crash_recovery EEPROM_4K blank_eeprom sample_game 5 sample_table
           [DoInitialize] (mkGameState [] 0 0 (fun _ => 0) 0 0 0) 5
           sample_table eq_refl eq_refl
           (ltac:(vm_compute; lia))).
Defined.

(** X6.  A cleared crash stays cleared.  With a chip present (and room
    for the record on it): after [savestate_clear], on the console started
    anew with the same chip, [savestate_checkcrashed] answers false once
    [savestate_initialize] has run. *)
Theorem X6_clear_survives_restart
    (w : World) (gm' : GameState) (n' : nat) (tb' : list Minigame) :
  truth (global_cansave w) = true ->
  eeprom_type w <> EEPROM_NONE ->
  (sizeof_GameSave <= List.length (eeprom w))%nat ->
  result savestate_checkcrashed
    (exec savestate_initialize
       (reboot (exec savestate_clear w) gm' n' tb')) = false.
Proof.
  intros Hc Ht Hl. unfold exec, result, reboot.
  rewrite (savestate_clear_enabled w Hc). cbn [snd]. world_fields.
  rewrite savestate_initialize_present by exact Ht.
  cbn [eeprom boot]. rewrite read_back_record by exact Hl.
  rewrite savestate_checkcrashed_run. cbn [fst snd]. world_fields.
  destruct (strncmp _ _ _ =? 0); reflexivity.
Qed.

(** X6 on the record a crash left, cleared from the menu. *)
Lemma X6_clear_survives_restart_witness :
  (truth (global_cansave crashed_console) = true /\
   eeprom_type crashed_console <> EEPROM_NONE /\
   (sizeof_GameSave <= List.length (eeprom crashed_console))%nat) /\
  result savestate_checkcrashed
    (exec savestate_initialize
       (reboot (exec savestate_clear crashed_console) sample_game 5
          sample_table)) = false.
Proof.
  split; [split; [reflexivity|split; [discriminate|vm_compute; lia]]|].
  apply (X6_clear_survives_restart crashed_console sample_game 5 sample_table);
    [reflexivity|discriminate|vm_compute; lia].
Defined.

(** X7.  A blacklist put on the chip by the config-only save is there
    after a restart.  From any world the program can be in with a chip
    present (and room for the record on it), for flags of the length of
    the minigame table, of at most 32 entries: after
    [savestate_setblacklist] and [savestate_save(true)], on the console
    started anew with the same chip and the same table length,
    [savestate_initialize] followed by [savestate_getblacklist] gives the
    flags back, and [savestate_checkcrashed] answers as it did before. *)
Theorem X7_blacklist_survives_restart
    (t : eeprom_type_t) (e : list Z) (gm : GameState) (n : nat)
    (tb : list Minigame) (ops : list Op) (flags out : list bool)
    (gm' : GameState) (tb' : list Minigame) :
  forallb is_byte e = true ->
  let w := run ops (boot t e gm n tb) in
  truth (global_cansave w) = true ->
  (sizeof_GameSave <= List.length (eeprom w))%nat ->
  List.length flags = global_minigame_count w ->
  List.length out = global_minigame_count w ->
  (global_minigame_count w <= 32)%nat ->
  let stored :=
    exec (savestate_save true) (exec (savestate_setblacklist flags) w) in
  let w' :=
    exec savestate_initialize
      (reboot stored gm' (global_minigame_count w) tb') in
  result (savestate_getblacklist out) w' = flags /\
  result savestate_checkcrashed w' = result savestate_checkcrashed w.
Proof.
  intros He w Hc Hl Hf Ho Hn stored w'.
  assert (Hs : sound (step w (DoSetblacklist flags)))
    by (apply step_sound, run_sound, boot_sound, He).
  cbn [step] in Hs. destruct Hs as (Hfit & _ & _ & Hh).
  subst w' stored. unfold exec, result, reboot in *.
  rewrite savestate_setblacklist_run in *. cbn [snd] in *.
  set (g := set_blacklist (pack (global_minigame_count w) flags)
              (global_gamesave w)) in *.
  assert (Hc' : truth (global_cansave (with_gamesave g w)) = true) by exact Hc.
  destruct (Hh Hc') as [Ht Hm].
  rewrite (savestate_save_configonly _ Hc'). cbn [snd]. world_fields.
  rewrite (initialize_reads_back _ g);
    [|exact Ht|now apply read_back_record|exact Hfit|exact Hm].
  cbn [snd]. rewrite savestate_getblacklist_run, !savestate_checkcrashed_run.
  cbn [fst]. world_fields.
  cbn [global_minigame_count boot with_gamesave with_calls with_cansave].
  subst g. cbn [blacklist crashedflag set_blacklist].
  split; [now apply unpack_pack|reflexivity].
Qed.

(** X7 at the console with a blank chip, minigames 0, 2 and 3 excluded. *)
Lemma X7_blacklist_survives_restart_witness :
  (forallb is_byte blank_eeprom = true /\
   truth (global_cansave (run [DoInitialize] fresh_console)) = true /\
   (sizeof_GameSave
    <= List.length (eeprom (run [DoInitialize] fresh_console)))%nat /\
   List.length [true; false; true; true; false]
   = global_minigame_count (run [DoInitialize] fresh_console) /\
   List.length (repeat false 5)
   = global_minigame_count (run [DoInitialize] fresh_console) /\
   (global_minigame_count (run [DoInitialize] fresh_console) <= 32)%nat) /\
  let stored :=
    exec (savestate_save true)
      (exec (savestate_setblacklist [true; false; true; true; false])
         (run [DoInitialize] fresh_console)) in
  let w' :=
    exec savestate_initialize
      (reboot stored sample_game
         (global_minigame_count (run [DoInitialize] fresh_console))
         sample_table) in
  result (savestate_getblacklist (repeat false 5)) w'
  = [true; false; true; true; false] /\
  result savestate_checkcrashed w'
  = result savestate_checkcrashed (run [DoInitialize] fresh_console).
Proof.
  split;
    [split; [reflexivity|split; [reflexivity|split; [vm_compute; lia|
     split; [reflexivity|split; [reflexivity|vm_compute; lia]]]]]|].
  exact (X7_blacklist_survives_restart EEPROM_4K blank_eeprom sample_game 5
           sample_table [DoInitialize] [true; false; true; true; false]
           (repeat false 5) sample_game sample_table
           eq_refl eq_refl (ltac:(vm_compute; lia)) eq_refl eq_refl
           (ltac:(vm_compute; lia))).
Defined.

(** ** The crashed flag between calls *)

Lemma step_keeps_crash w o :
  settles_crash o = false ->
  result savestate_checkcrashed w = true ->
  result savestate_checkcrashed (step w o) = true.
Proof.
  unfold result. rewrite !savestate_checkcrashed_run. cbn [fst].
  intros Ho H.
  destruct o as [| |[|]| | | | |gm n tb]; try discriminate Ho;
    cbn [step]; unfold exec; try exact H.
  - destruct (truth (global_cansave w)) eqn:Hc.
    + now rewrite (savestate_save_configonly w Hc).
    + now rewrite (savestate_save_disabled true w Hc).
  - destruct (truth (global_cansave w)) eqn:Hc.
    + now rewrite (savestate_save_full w Hc).
    + now rewrite (savestate_save_disabled false w Hc).
  - destruct (truth (global_cansave w)) eqn:Hc.
    + now rewrite (savestate_load_enabled w Hc).
    + now rewrite (savestate_load_disabled w Hc).
Qed.

(** X8.  A recorded crash stays on record: once
    [savestate_checkcrashed] answers true it goes on answering true
    through saves in either mode, loads, blacklist calls and whatever
    the game does, until [savestate_clear] or [savestate_initialize] is
    called. *)
Theorem X8_crash_stays_on_record (ops : list Op) (w : World) :
  forallb (fun o => negb (settles_crash o)) ops = true ->
  result savestate_checkcrashed w = true ->
  result savestate_checkcrashed (run ops w) = true.
Proof.
  revert w. induction ops as [|o ops IH]; intros w Ho H;
    cbn [run fold_left forallb] in *; [exact H|].
  apply andb_true_iff in Ho. destruct Ho as [Ho Hops].
  apply (IH _ Hops), step_keeps_crash; [|exact H].
  now destruct (settles_crash o).
Qed.

(** X8 on the record a crash left: restored, saved again, blacklisted. *)
Lemma X8_crash_stays_on_record_witness :
  (forallb (fun o => negb (settles_crash o))
     [DoLoad; DoSave true; DoSetblacklist [true]; DoSave false;
      DoGetblacklist [false]; DoCheckcrashed] = true /\
   result savestate_checkcrashed crashed_console = true) /\
  result savestate_checkcrashed
    (run [DoLoad; DoSave true; DoSetblacklist [true]; DoSave false;
          DoGetblacklist [false]; DoCheckcrashed] crashed_console) = true.
Proof.
  split; [split; reflexivity|].
  exact (X8_crash_stays_on_record
           [DoLoad; DoSave true; DoSetblacklist [true]; DoSave false;
            DoGetblacklist [false]; DoCheckcrashed] crashed_console
           eq_refl eq_refl).
Defined.

(** ** The checksum function *)

Lemma sum_other_bytes_range g : 0 <= sum_other_bytes g < 256.
Proof.
  destruct g as [h bl cf ad pw np pc pt ch cg ck tp].
  cbv [sum_other_bytes GameSave_bytes read_bytes bytes_of_u32
       fold_left firstn skipn app map seq aget sizeof_GameSave
       offsetof_checksum MAXPLAYERS Nat.add Nat.sub Nat.mul
       header blacklist crashedflag aidiff pointstowin nextplaystyle
       playerconts points chooser curgame checksum tailpad].
  unfold u8 at 1. apply Z.mod_pos_bound. lia.
Qed.

(** X9.  [calc_checksum] answers a byte: the sum modulo 256 of all bytes
    of the record, the checksum byte that is in the record at that moment
    among them.  It is the sum of the other bytes exactly when called on a
    record whose checksum byte is 0. *)
Theorem X9_calc_checksum_sums_every_byte (g : GameSave) :
  0 <= calc_checksum g < 256 /\
  calc_checksum g = u8 (sum_other_bytes g + checksum g) /\
  calc_checksum (set_checksum 0 g) = sum_other_bytes g.
Proof.
  pose proof (sum_other_bytes_range g) as Hr.
  split; [|split].
  - rewrite calc_checksum_others. unfold u8. apply Z.mod_pos_bound. lia.
  - apply calc_checksum_others.
  - rewrite calc_checksum_others, sum_other_bytes_set_checksum.
    cbn [checksum set_checksum]. rewrite Z.add_0_r.
    unfold u8. apply Z.mod_small. exact Hr.
Qed.

(** ** Reading the blacklist *)

(** X10.  For at most 32 registered minigames and an array with an entry
    for each, [savestate_getblacklist] stores bit [k] of the blacklist in
    entry [k] of the caller's array for every [k] below the number of
    minigames, leaves every other entry and the length of the array as
    they are, and changes nothing in the world. *)
Theorem X10_getblacklist_fills_prefix
    (w : World) (out : list bool) (k : nat) :
  (global_minigame_count w <= 32)%nat ->
  (global_minigame_count w <= List.length out)%nat ->
  let out' := result (savestate_getblacklist out) w in
  nth k out' false
  = (if (k <? global_minigame_count w)%nat
     then Z.testbit (blacklist (global_gamesave w)) (Z.of_nat k)
     else nth k out false) /\
  List.length out' = List.length out /\
  exec (savestate_getblacklist out) w = w.
Proof.
  intros Hc Hl. unfold result, exec. rewrite savestate_getblacklist_run.
  cbn [fst snd]. unfold unpack. rewrite nth_for_unpack, length_unpack.
  split; [|now split].
  destruct (Nat.leb_spec 0 k), (Nat.ltb_spec k (0 + global_minigame_count w)),
    (Nat.ltb_spec k (global_minigame_count w)),
    (Nat.ltb_spec k (List.length out)); cbn [andb]; try lia; reflexivity.
Qed.

(** X10 on the blacklist 13 (minigames 0, 2 and 3) with five minigames
    and an array of seven entries: entry 2 is set. *)
Lemma X10_getblacklist_fills_prefix_witness :
  ((global_minigame_count listed_console <= 32)%nat /\
   (global_minigame_count listed_console
    <= List.length (repeat false 7))%nat) /\
  let out' := result (savestate_getblacklist (repeat false 7)) listed_console in
  nth 2 out' false
  = (if (2 <? global_minigame_count listed_console)%nat
     then Z.testbit (blacklist (global_gamesave listed_console)) (Z.of_nat 2)
     else nth 2 (repeat false 7) false) /\
  List.length out' = List.length (repeat false 7) /\
  exec (savestate_getblacklist (repeat false 7)) listed_console
  = listed_console.
Proof.
  split; [split; vm_compute; lia|].
  exact (X10_getblacklist_fills_prefix listed_console (repeat false 7) 2
           (ltac:(vm_compute; lia)) (ltac:(vm_compute; lia))).
Defined.

(** ** The restore menu *)

Ltac screen_fields :=
  cbv [global_selection global_font world joypad_inputs
       joypad_buttons_pressed joypad_axis_pressed font_file framebuffer shown
       with_selection with_font with_world with_shown ui in_world crashed].

(** The loop: nothing without a reason to ask, else the controls and one
    frame. *)
Lemma loadsave_loop_eq s :
  loadsave_loop s =
  if negb (crashed s) && truth (global_cansave (world s)) then s else
  with_shown
    (shown (controls s)
     ++ frame (crashed (controls s)) (global_selection (controls s))
          (framebuffer s))
    (controls s).
Proof.
  destruct s as [sel font w ji jb ja ff fb sh].
  unfold loadsave_loop, controls, options. screen_fields.
  destruct (negb (result savestate_checkcrashed w)
            && truth (global_cansave w));
    [reflexivity|].
  cbv zeta. unfold frame, backdrop, crash_prompt, eeprom_notice.
  destruct (truth (global_cansave w)); cbn [negb];
  (destruct (controller_isleft _);
   [ destruct (_ >? _)
   | destruct (controller_isright _);
     [ destruct (_ <? _)
     | destruct (controller_isa _);
       [ destruct (result savestate_checkcrashed w && (sel =? 0));
         [ | destruct (result savestate_checkcrashed w) ]
       | ] ] ]);
  screen_fields;
  try match goal with
  | |- context [if result savestate_checkcrashed ?w then _ else _] =>
      destruct (result savestate_checkcrashed w)
  end;
  screen_fields; repeat rewrite <- app_assoc; reflexivity.
Qed.

Lemma s32_small z : - 2 ^ 31 <= z < 2 ^ 31 -> s32 z = z.
Proof.
  intros H. unfold s32. rewrite Z.mod_small by lia. lia.
Qed.

Lemma savestate_load_keeps w :
  global_cansave (exec savestate_load w) = global_cansave w /\
  global_gamesave (exec savestate_load w) = global_gamesave w /\
  eeprom (exec savestate_load w) = eeprom w.
Proof.
  unfold exec. destruct (truth (global_cansave w)) eqn:H.
  - rewrite (savestate_load_enabled w H). now repeat split.
  - rewrite (savestate_load_disabled w H). now repeat split.
Qed.

Lemma savestate_clear_cansave w :
  global_cansave (exec savestate_clear w) = global_cansave w.
Proof.
  unfold exec. destruct (truth (global_cansave w)) eqn:H.
  - now rewrite (savestate_clear_enabled w H).
  - now rewrite (savestate_clear_disabled w H).
Qed.

Lemma options_controls s : options (controls s) = options s.
Proof.
  destruct s as [sel font w ji jb ja ff fb sh].
  unfold controls, options. screen_fields.
  destruct (controller_isleft _); [destruct (_ >? _); reflexivity|].
  destruct (controller_isright _); [destruct (_ <? _); reflexivity|].
  destruct (controller_isa _); [|reflexivity].
  destruct (result savestate_checkcrashed w && (sel =? 0)).
  - screen_fields. destruct (savestate_load_keeps w) as [-> _]. reflexivity.
  - destruct (result savestate_checkcrashed w); screen_fields;
      [rewrite savestate_clear_cansave|]; reflexivity.
Qed.

Lemma selection_controls s :
  0 <= global_selection s < options s ->
  0 <= global_selection (controls s) < options s /\
  ((controller_isleft s || controller_isright s) = true ->
   global_selection (controls s) = (global_selection s + 1) mod options s) /\
  ((controller_isleft s || controller_isright s) = false ->
   global_selection (controls s) = global_selection s).
Proof.
  destruct s as [sel font w ji jb ja ff fb sh].
  unfold controls, options. screen_fields. intros H.
  assert (Ho : (if truth (global_cansave w) then 2 else 1) = 1
               \/ (if truth (global_cansave w) then 2 else 1) = 2)
    by (destruct (truth (global_cansave w)); auto).
  set (o := if truth (global_cansave w) then 2 else 1) in *.
  rewrite !s32_small by lia.
  destruct (controller_isleft _); cbn [orb].
  - destruct (Z.gtb_spec (sel + 1) (o - 1)); screen_fields.
    + split; [lia|]. split; [intros _|discriminate].
      replace (sel + 1) with (0 + 1 * o) by lia.
      rewrite Z.mod_add by lia. now rewrite Z.mod_small by lia.
    + split; [lia|]. split; [intros _|discriminate].
      now rewrite Z.mod_small by lia.
  - destruct (controller_isright _).
    + destruct (Z.ltb_spec (sel - 1) 0); screen_fields.
      * split; [lia|]. split; [intros _|discriminate].
        assert (sel = 0) by lia. subst sel.
        destruct Ho as [-> | ->]; reflexivity.
      * split; [lia|]. split; [intros _|discriminate].
        assert (sel = 1 /\ o = 2) as [-> ->] by lia. reflexivity.
    + destruct (controller_isa _); [|now repeat split].
      destruct (result savestate_checkcrashed w && (sel =? 0)).
      * screen_fields. now repeat split.
      * destruct (result savestate_checkcrashed w); screen_fields;
          now repeat split.
Qed.

(** X11.  With a chip present and no crash on record there is nothing to
    ask: [loadsave_init] ends by asking core for the main menu, and
    [loadsave_loop] returns at once, reading no controller and drawing
    nothing.  In every case [loadsave_init] sets up the display and the
    font, registers the two styles and puts the highlight on the first
    option, and touches nothing of the save state. *)
Theorem X11_nothing_to_ask (s : Screen) :
  crashed s = false ->
  truth (global_cansave (world s)) = true ->
  loadsave_loop s = s /\
  shown (loadsave_init s) =
    shown s ++ init_calls (font_file s "rom:/squarewave_l.font64")
    ++ [Ui_core_level_changeto LEVEL_MAINMENU] /\
  global_selection (loadsave_init s) = 0 /\
  world (loadsave_init s) = world s.
Proof.
  intros Hc Hs. rewrite loadsave_loop_eq, Hc, Hs. cbn [negb andb].
  split; [reflexivity|].
  destruct s as [sel font w ji jb ja ff fb sh].
  unfold crashed in Hc. cbn [world] in Hc, Hs.
  unfold loadsave_init, init_calls. screen_fields. rewrite Hc, Hs.
  cbn [negb andb]. screen_fields.
  repeat rewrite <- app_assoc. now repeat split.
Qed.

(** X11 at the console with a blank chip, once started. *)
Lemma X11_nothing_to_ask_witness :
  (crashed (screen_over started_console 1 idle_pad) = false /\
   truth (global_cansave (world (screen_over started_console 1 idle_pad)))
   = true) /\
  loadsave_loop (screen_over started_console 1 idle_pad)
  = screen_over started_console 1 idle_pad /\
  shown (loadsave_init (screen_over started_console 1 idle_pad)) =
    shown (screen_over started_console 1 idle_pad)
    ++ init_calls
         (font_file (screen_over started_console 1 idle_pad)
            "rom:/squarewave_l.font64")
    ++ [Ui_core_level_changeto LEVEL_MAINMENU] /\
  global_selection (loadsave_init (screen_over started_console 1 idle_pad))
  = 0 /\
  world (loadsave_init (screen_over started_console 1 idle_pad))
  = world (screen_over started_console 1 idle_pad).
Proof.
  split; [split; reflexivity|].
  exact (X11_nothing_to_ask (screen_over started_console 1 idle_pad)
           eq_refl eq_refl).
Defined.

(** X12.  The highlight stays on an option: with [global_selection]
    between 0 and the number of options (two with the file switched on,
    one without a chip), it is so again after [loadsave_loop], whatever
    the controllers say, and the number of options is the same. *)
Theorem X12_selection_in_range (s : Screen) :
  0 <= global_selection s < options s ->
  0 <= global_selection (loadsave_loop s) < options (loadsave_loop s) /\
  options (loadsave_loop s) = options s.
Proof.
  intros H. rewrite loadsave_loop_eq.
  destruct (negb (crashed s) && truth (global_cansave (world s)));
    [now split|].
  change (options (with_shown ?l ?x)) with (options x).
  change (global_selection (with_shown ?l ?x)) with (global_selection x).
  rewrite options_controls. split; [|reflexivity].
  now apply selection_controls.
Qed.

(** X12 on the crash prompt with "No" selected and a push to the left. *)
Lemma X12_selection_in_range_witness :
  (0 <= global_selection
          (screen_over crashed_console 1
             (mkButtons false true false false false))
   < options
       (screen_over crashed_console 1
          (mkButtons false true false false false))) /\
  0 <= global_selection
         (loadsave_loop
            (screen_over crashed_console 1
               (mkButtons false true false false false)))
  < options
      (loadsave_loop
         (screen_over crashed_console 1
            (mkButtons false true false false false))) /\
  options
    (loadsave_loop
       (screen_over crashed_console 1
          (mkButtons false true false false false)))
  = options
      (screen_over crashed_console 1
         (mkButtons false true false false false)).
Proof.
  split; [vm_compute; split; [discriminate|reflexivity]|].
  apply (X12_selection_in_range
           (screen_over crashed_console 1
              (mkButtons false true false false false))).
  vm_compute; split; [discriminate|reflexivity].
Defined.

Lemma controls_moved s :
  (controller_isleft s || controller_isright s) = true ->
  world (controls s) = world s /\ shown (controls s) = shown s.
Proof.
  destruct s as [sel font w ji jb ja ff fb sh].
  unfold controls. screen_fields.
  destruct (controller_isleft _); cbn [orb].
  - intros _. destruct (_ >? _); now split.
  - destruct (controller_isright _); [|discriminate].
    intros _. destruct (_ <? _); now split.
Qed.

(** X13.  A push to the left or to the right, on any controller, moves
    the highlight to the next option and back to the first after the last
    (to the other option of two; nowhere, of one).  It wins over the A
    button: in that frame nothing is restored or cleared and core is not
    asked for a level; the frame is drawn with the new highlight. *)
Theorem X13_left_right_move_highlight (s : Screen) :
  negb (crashed s) && truth (global_cansave (world s)) = false ->
  0 <= global_selection s < options s ->
  (controller_isleft s || controller_isright s) = true ->
  global_selection (loadsave_loop s)
  = (global_selection s + 1) mod options s /\
  world (loadsave_loop s) = world s /\
  shown (loadsave_loop s) =
    shown s ++
    frame (crashed s) ((global_selection s + 1) mod options s) (framebuffer s).
Proof.
  intros Hskip Hsel Hm. rewrite loadsave_loop_eq, Hskip.
  destruct (selection_controls s Hsel) as (_ & Hmove & _).
  destruct (controls_moved s Hm) as [Hw Hsh].
  cbn [global_selection world shown with_shown].
  unfold crashed at 1. rewrite Hw, Hsh, (Hmove Hm). now repeat split.
Qed.

(** X13 on the crash prompt: "Yes" is selected, player 2 pushes the pad
    to the right and presses A in the same frame; the highlight goes to
    "No" and nothing else happens. *)
Lemma X13_left_right_move_highlight_witness :
  (negb (crashed (screen_over crashed_console 0
                    (mkButtons true false false false true)))
   && truth (global_cansave
               (world (screen_over crashed_console 0
                         (mkButtons true false false false true)))) = false /\
   0 <= global_selection
          (screen_over crashed_console 0
             (mkButtons true false false false true))
   < options
       (screen_over crashed_console 0
          (mkButtons true false false false true)) /\
   (controller_isleft
      (screen_over crashed_console 0 (mkButtons true false false false true))
    || controller_isright
         (screen_over crashed_console 0
            (mkButtons true false false false true))) = true) /\
  global_selection
    (loadsave_loop
       (screen_over crashed_console 0 (mkButtons true false false false true)))
  = 1 /\
  world
    (loadsave_loop
       (screen_over crashed_console 0 (mkButtons true false false false true)))
  = crashed_console /\
  shown
    (loadsave_loop
       (screen_over crashed_console 0 (mkButtons true false false false true)))
  = [] ++ frame true 1 8192.
Proof.
  split; [split; [reflexivity|split;
    [vm_compute; split; [discriminate|reflexivity]|reflexivity]]|].
  apply (X13_left_right_move_highlight
           (screen_over crashed_console 0
              (mkButtons true false false false true)));
    [reflexivity|vm_compute; split; [discriminate|reflexivity]|reflexivity].
Defined.

Lemma controls_a s :
  controller_isleft s = false -> controller_isright s = false ->
  controller_isa s = true ->
  controls s =
  if crashed s && (global_selection s =? 0)
  then
    ui (Ui_core_level_changeto LEVEL_MINIGAME)
      (in_world Ui_savestate_load savestate_load s)
  else
    ui (Ui_core_level_changeto LEVEL_MAINMENU)
      (if crashed s
       then in_world Ui_savestate_clear savestate_clear s
       else s).
Proof.
  intros Hl Hr Ha. unfold controls. now rewrite Hl, Hr, Ha.
Qed.

(** X14.  "Yes".  With a crash on record and the highlight on the first
    option, the A button (and no push to the side) restores the game:
    the menu calls [savestate_load], then asks core for the minigame
    level, then draws the frame, which still shows the question.  The
    record and the chip are as before: the crash stays on record. *)
Theorem X14_yes_restores (s : Screen) :
  crashed s = true ->
  global_selection s = 0 ->
  controller_isleft s = false ->
  controller_isright s = false ->
  controller_isa s = true ->
  world (loadsave_loop s) = exec savestate_load (world s) /\
  shown (loadsave_loop s) =
    shown s ++ [Ui_savestate_load; Ui_core_level_changeto LEVEL_MINIGAME]
    ++ frame true 0 (framebuffer s) /\
  global_gamesave (world (loadsave_loop s)) = global_gamesave (world s) /\
  eeprom (world (loadsave_loop s)) = eeprom (world s) /\
  crashed (loadsave_loop s) = true.
Proof.
  intros Hc Hsel Hl Hr Ha.
  rewrite loadsave_loop_eq, (controls_a s Hl Hr Ha), Hc, Hsel.
  cbn [negb andb Z.eqb].
  destruct (savestate_load_keeps (world s)) as (_ & Hg & He).
  assert (Hc' : result savestate_checkcrashed (exec savestate_load (world s))
                = true).
  { unfold result in *. unfold crashed, result in Hc.
    rewrite savestate_checkcrashed_run in *. cbn [fst] in *.
    now rewrite Hg. }
  destruct s as [sel font w ji jb ja ff fb sh]. screen_fields.
  cbn [world global_selection] in *. subst sel. rewrite Hc', Hg, He.
  repeat rewrite <- app_assoc. now repeat split.
Qed.

(** X14 on the record a crash left, player 2 pressing A on "Yes". *)
Lemma X14_yes_restores_witness :
  (crashed (screen_over crashed_console 0
              (mkButtons true false false false false)) = true /\
   global_selection
     (screen_over crashed_console 0 (mkButtons true false false false false))
   = 0 /\
   controller_isleft
     (screen_over crashed_console 0 (mkButtons true false false false false))
   = false /\
   controller_isright
     (screen_over crashed_console 0 (mkButtons true false false false false))
   = false /\
   controller_isa
     (screen_over crashed_console 0 (mkButtons true false false false false))
   = true) /\
  world
    (loadsave_loop
       (screen_over crashed_console 0
          (mkButtons true false false false false)))
  = exec savestate_load crashed_console /\
  shown
    (loadsave_loop
       (screen_over crashed_console 0
          (mkButtons true false false false false)))
  = [] ++ [Ui_savestate_load; Ui_core_level_changeto LEVEL_MINIGAME]
    ++ frame true 0 8192 /\
  global_gamesave
    (world
       (loadsave_loop
          (screen_over crashed_console 0
             (mkButtons true false false false false))))
  = crashed_record /\
  eeprom
    (world
       (loadsave_loop
          (screen_over crashed_console 0
             (mkButtons true false false false false))))
  = eeprom crashed_console /\
  crashed
    (loadsave_loop
       (screen_over crashed_console 0
          (mkButtons true false false false false))) = true.
Proof.
  split; [repeat split|].
  exact (X14_yes_restores
           (screen_over crashed_console 0
              (mkButtons true false false false false))
           eq_refl eq_refl eq_refl eq_refl eq_refl).
Defined.

(** X15.  "No".  With the file switched on, a crash on record and the
    highlight off the first option, the A button (and no push to the
    side) settles the crash: the menu calls [savestate_clear], so the
    flag is down in memory and on the chip, then asks core for the main
    menu.  The frame drawn after that finds no crash on record and shows
    the notice that no EEPROM was detected. *)
Theorem X15_no_clears (s : Screen) :
  crashed s = true ->
  truth (global_cansave (world s)) = true ->
  (global_selection s =? 0) = false ->
  controller_isleft s = false ->
  controller_isright s = false ->
  controller_isa s = true ->
  world (loadsave_loop s) = exec savestate_clear (world s) /\
  crashed (loadsave_loop s) = false /\
  shown (loadsave_loop s) =
    shown s ++ [Ui_savestate_clear; Ui_core_level_changeto LEVEL_MAINMENU]
    ++ frame false (global_selection s) (framebuffer s).
Proof.
  intros Hc Hs Hsel Hl Hr Ha.
  rewrite loadsave_loop_eq, (controls_a s Hl Hr Ha), Hc, Hsel, Hs.
  cbn [negb andb].
  assert (Hc' : result savestate_checkcrashed (exec savestate_clear (world s))
                = false).
  { unfold result, exec. rewrite (savestate_clear_enabled _ Hs).
    reflexivity. }
  destruct s as [sel font w ji jb ja ff fb sh]. screen_fields.
  cbn [world] in *. rewrite Hc'.
  repeat rewrite <- app_assoc. now repeat split.
Qed.

(** X15 on the record a crash left, player 2 pressing A on "No". *)
Lemma X15_no_clears_witness :
  (crashed (screen_over crashed_console 1
              (mkButtons true false false false false)) = true /\
   truth (global_cansave
            (world (screen_over crashed_console 1
                      (mkButtons true false false false false)))) = true /\
   (global_selection
      (screen_over crashed_console 1 (mkButtons true false false false false))
    =? 0) = false /\
   controller_isleft
     (screen_over crashed_console 1 (mkButtons true false false false false))
   = false /\
   controller_isright
     (screen_over crashed_console 1 (mkButtons true false false false false))
   = false /\
   controller_isa
     (screen_over crashed_console 1 (mkButtons true false false false false))
   = true) /\
  world
    (loadsave_loop
       (screen_over crashed_console 1
          (mkButtons true false false false false)))
  = exec savestate_clear crashed_console /\
  crashed
    (loadsave_loop
       (screen_over crashed_console 1
          (mkButtons true false false false false))) = false /\
  shown
    (loadsave_loop
       (screen_over crashed_console 1
          (mkButtons true false false false false)))
  = [] ++ [Ui_savestate_clear; Ui_core_level_changeto LEVEL_MAINMENU]
    ++ frame false 1 8192.
Proof.
  split; [repeat split|].
  exact (X15_no_clears
           (screen_over crashed_console 1
              (mkButtons true false false false false))
           eq_refl eq_refl eq_refl eq_refl eq_refl eq_refl).
Defined.

(** X16.  "Ok".  On the notice shown without a chip (no crash on record,
    the file switched off), the A button (and no push to the side) asks
    core for the main menu and nothing else: no function of the save
    state is called and the world is as before. *)
Theorem X16_ok_leaves (s : Screen) :
  crashed s = false ->
  truth (global_cansave (world s)) = false ->
  controller_isleft s = false ->
  controller_isright s = false ->
  controller_isa s = true ->
  world (loadsave_loop s) = world s /\
  shown (loadsave_loop s) =
    shown s ++ [Ui_core_level_changeto LEVEL_MAINMENU]
    ++ frame false (global_selection s) (framebuffer s).
Proof.
  intros Hc Hs Hl Hr Ha.
  rewrite loadsave_loop_eq, (controls_a s Hl Hr Ha), Hc, Hs.
  cbn [negb andb].
  destruct s as [sel font w ji jb ja ff fb sh]. unfold crashed in Hc.
  screen_fields. cbn [world] in *. rewrite Hc.
  repeat rewrite <- app_assoc. now repeat split.
Qed.

(** X16 at the console without a chip, player 2 pressing A. *)
Lemma X16_ok_leaves_witness :
  (crashed (screen_over bare_console 0
              (mkButtons true false false false false)) = false /\
   truth (global_cansave
            (world (screen_over bare_console 0
                      (mkButtons true false false false false)))) = false /\
   controller_isleft
     (screen_over bare_console 0 (mkButtons true false false false false))
   = false /\
   controller_isright
     (screen_over bare_console 0 (mkButtons true false false false false))
   = false /\
   controller_isa
     (screen_over bare_console 0 (mkButtons true false false false false))
   = true) /\
  world
    (loadsave_loop
       (screen_over bare_console 0 (mkButtons true false false false false)))
  = bare_console /\
  shown
    (loadsave_loop
       (screen_over bare_console 0 (mkButtons true false false false false)))
  = [] ++ [Ui_core_level_changeto LEVEL_MAINMENU] ++ frame false 0 8192.
Proof.
  split; [repeat split|].
  exact (X16_ok_leaves
           (screen_over bare_console 0
              (mkButtons true false false false false))
           eq_refl eq_refl eq_refl eq_refl eq_refl).
Defined.

(** X17.  All a frame of the menu can do to the save state is restore or
    clear: after [loadsave_loop] the world is as before, or it is the
    world after [savestate_load], which takes a crash on record and the
    highlight on the first option, or the world after [savestate_clear],
    which takes a crash on record and the highlight elsewhere.  The menu
    never saves and never starts the file up. *)
Theorem X17_menu_restores_or_clears (s : Screen) :
  world (loadsave_loop s) = world s \/
  (crashed s = true /\ global_selection s = 0 /\
   world (loadsave_loop s) = exec savestate_load (world s)) \/
  (crashed s = true /\ global_selection s <> 0 /\
   world (loadsave_loop s) = exec savestate_clear (world s)).
Proof.
  rewrite loadsave_loop_eq.
  destruct (negb (crashed s) && truth (global_cansave (world s)));
    [now left|].
  change (world (with_shown ?l ?x)) with (world x).
  unfold controls.
  destruct (controller_isleft s); [destruct (_ >? _); now left|].
  destruct (controller_isright s); [destruct (_ <? _); now left|].
  destruct (controller_isa s); [|now left].
  destruct (crashed s); cbn [andb]; [|now left].
  destruct (Z.eqb_spec (global_selection s) 0) as [H0|H0].
  - right; left. now repeat split.
  - right; right. now repeat split.
Qed.

Lemma loadsave_loop_font s : global_font (loadsave_loop s) = global_font s.
Proof.
  rewrite loadsave_loop_eq.
  destruct (negb (crashed s) && truth (global_cansave (world s)));
    [reflexivity|].
  change (global_font (with_shown ?l ?x)) with (global_font x).
  unfold controls.
  destruct (controller_isleft s); [destruct (_ >? _); reflexivity|].
  destruct (controller_isright s); [destruct (_ <? _); reflexivity|].
  destruct (controller_isa s); [|reflexivity].
  destruct (crashed s && (global_selection s =? 0)); [reflexivity|].
  destruct (crashed s); reflexivity.
Qed.

(** X18.  [loadsave_cleanup] gives back what [loadsave_init] took: after
    [loadsave_init] and any number of frames, each with its own state of
    the controllers, its own surface and whatever the rest of the program
    called in between, its calls are to unregister font 1, to free the
    very font [loadsave_init] loaded from "rom:/squarewave_l.font64", and
    to close the display. *)
Theorem X18_cleanup_frees_the_font (s : Screen) (frames : list FrameInput) :
  let s' := run_frames frames (loadsave_init s) in
  shown (loadsave_cleanup s') =
    shown s' ++
    [ Ui_rdpq_text_unregister_font 1;
      Ui_rdpq_font_free (font_file s "rom:/squarewave_l.font64");
      Ui_display_close ].
Proof.
  intros s'.
  assert (Hinit : global_font (loadsave_init s)
                  = font_file s "rom:/squarewave_l.font64").
  { unfold loadsave_init. destruct s as [sel font w ji jb ja ff fb sh].
    screen_fields. now destruct (negb _ && _). }
  assert (Hf : global_font s' = font_file s "rom:/squarewave_l.font64").
  { subst s'. revert Hinit. generalize (loadsave_init s) as s0.
    unfold run_frames.
    induction frames as [|f frames IH]; intros s0 H0; cbn [fold_left];
      [exact H0|].
    apply IH. now rewrite loadsave_loop_font. }
  unfold loadsave_cleanup. destruct s' as [sel font w ji jb ja ff fb sh].
  screen_fields. cbn [global_font] in Hf. rewrite Hf.
  repeat rewrite <- app_assoc. reflexivity.
Qed.

(** ** A crash on record and the chip *)

Lemma step_crash_with_chip w o :
  (truth (crashedflag (global_gamesave w)) = true ->
   truth (global_cansave w) = true) ->
  eeprom_type w <> EEPROM_NONE ->
  truth (crashedflag (global_gamesave (step w o))) = true ->
  truth (global_cansave (step w o)) = true.
Proof.
  intros Hinv Ht.
  destruct o as [| |[|]| | | | |gm n tb]; cbn [step]; unfold exec;
    try exact Hinv.
  - rewrite (savestate_initialize_present w Ht). reflexivity.
  - destruct (truth (global_cansave w)) eqn:H.
    + rewrite (savestate_save_configonly w H). intros _. exact H.
    + rewrite (savestate_save_disabled true w H). cbn [snd]. rewrite H. exact Hinv.
  - destruct (truth (global_cansave w)) eqn:H.
    + rewrite (savestate_save_full w H). intros _. exact H.
    + rewrite (savestate_save_disabled false w H). cbn [snd]. rewrite H. exact Hinv.
  - destruct (truth (global_cansave w)) eqn:H.
    + rewrite (savestate_load_enabled w H). intros _. exact H.
    + rewrite (savestate_load_disabled w H). cbn [snd]. rewrite H. exact Hinv.
  - destruct (truth (global_cansave w)) eqn:H.
    + rewrite (savestate_clear_enabled w H). intros _. exact H.
    + rewrite (savestate_clear_disabled w H). cbn [snd]. rewrite H. exact Hinv.
Qed.

Lemma run_crash_with_chip ops : forall w,
  (truth (crashedflag (global_gamesave w)) = true ->
   truth (global_cansave w) = true) ->
  eeprom_type w <> EEPROM_NONE ->
  truth (crashedflag (global_gamesave (run ops w))) = true ->
  truth (global_cansave (run ops w)) = true.
Proof.
  induction ops as [|o ops IH]; intros w Hinv Ht; cbn [run fold_left];
    [exact Hinv|].
  apply IH; [now apply step_crash_with_chip|].
  now rewrite step_eeprom_type.
Qed.

(** X19.  From the start of the console, whatever is called: when
    [savestate_checkcrashed] answers true the file is switched on and a
    chip is present.  So the question after a crash always comes with its
    two options, and the notice without a chip never hides a crash. *)
Theorem X19_crash_on_record_has_chip
    (t : eeprom_type_t) (e : list Z) (gm : GameState) (n : nat)
    (tb : list Minigame) (ops : list Op) :
  result savestate_checkcrashed (run ops (boot t e gm n tb)) = true ->
  truth (global_cansave (run ops (boot t e gm n tb))) = true /\
  eeprom_type (run ops (boot t e gm n tb)) <> EEPROM_NONE.
Proof.
  unfold result. rewrite savestate_checkcrashed_run. cbn [fst]. intros H.
  assert (Ht : t <> EEPROM_NONE).
  { intros ->.
    destruct (run_switched_off ops _ (boot_switched_off e gm n tb))
      as (_ & _ & Hf).
    rewrite Hf in H. discriminate H. }
  split.
  - apply run_crash_with_chip; [discriminate|exact Ht|exact H].
  - now rewrite run_eeprom_type.
Qed.

(** X19 after a start-up and a full save on a blank chip. *)
Lemma X19_crash_on_record_has_chip_witness :
  result savestate_checkcrashed
    (run [DoInitialize; DoSave false]
       (boot EEPROM_4K blank_eeprom sample_game 5 sample_table)) = true /\
  truth
    (global_cansave
       (run [DoInitialize; DoSave false]
          (boot EEPROM_4K blank_eeprom sample_game 5 sample_table))) = true /\
  eeprom_type
    (run [DoInitialize; DoSave false]
       (boot EEPROM_4K blank_eeprom sample_game 5 sample_table))
  <> EEPROM_NONE.
Proof.
  split; [reflexivity|].
  exact (X19_crash_on_record_has_chip EEPROM_4K blank_eeprom sample_game 5
           sample_table [DoInitialize; DoSave false] eq_refl).
Defined.
